(** * PakGPT News Engine: a shallow embedding of [main.py]

    The handlers of the FastAPI application are embedded as Rocq functions
    over a small model of the Python values they manipulate:

    - Python [str] is a list of Unicode code points ([pystr]); slicing and
      [len] count code points, as in Python;
    - a Python [dict] with string keys is a [gmap string value], over the
      values [None], booleans, integers, strings, lists and ObjectIds;
    - a raised exception is the [Raise] branch of the result type [res]; a
      handler ends in a [reply]: its return value, the [HTTPException] it
      raised, or an exception nobody caught;
    - the document store ([database.create_document], [get_documents]) is an
      interface: handlers thread a store state through its operations;
    - [datetime.utcnow().isoformat()] is read from a clock given as an
      argument (the i-th call of the request returns [clock i]).          *)

From Stdlib Require Import ZArith NArith List Ascii String.
From stdpp Require Import gmap strings list fin_maps.

Open Scope list_scope.

(* ===================================================================== *)
(** ** Python text                                                        *)
(* ===================================================================== *)

(** A Python [str]: the sequence of its code points. *)
Abbreviation pystr := (list N).

Module PyStr.

(** The bytes of a source literal (the file is UTF-8 encoded). *)
Fixpoint bytes (s : string) : list N :=
  match s with
  | EmptyString => []
  | String a s' => N_of_ascii a :: bytes s'
  end.

Definition cont (b : N) : N := N.land b 63.

(** UTF-8 decoding of a well-formed byte sequence into code points. *)
Fixpoint utf8_decode (bs : list N) : pystr :=
  match bs with
  | [] => []
  | b0 :: r0 =>
    if (b0 <? 128)%N then b0 :: utf8_decode r0
    else if (b0 <? 224)%N then
      match r0 with
      | b1 :: r1 =>
          N.lor (N.shiftl (N.land b0 31) 6) (cont b1) :: utf8_decode r1
      | _ => []
      end
    else if (b0 <? 240)%N then
      match r0 with
      | b1 :: b2 :: r2 =>
          N.lor (N.shiftl (N.land b0 15) 12)
            (N.lor (N.shiftl (cont b1) 6) (cont b2)) :: utf8_decode r2
      | _ => []
      end
    else
      match r0 with
      | b1 :: b2 :: b3 :: r3 =>
          N.lor (N.shiftl (N.land b0 7) 18)
            (N.lor (N.shiftl (cont b1) 12)
               (N.lor (N.shiftl (cont b2) 6) (cont b3))) :: utf8_decode r3
      | _ => []
      end
  end.

(** [py "..."] is the Python string written as that literal. *)
Definition py (s : string) : pystr := utf8_decode (bytes s).

(** [s[:n]] for a non-negative bound [n]. *)
Definition slice_to (n : nat) (s : pystr) : pystr := take n s.

(** [p] is a prefix of [s]. *)
Fixpoint starts_with (p s : pystr) : bool :=
  match p, s with
  | [], _ => true
  | _ :: _, [] => false
  | a :: p', b :: s' => (a =? b)%N && starts_with p' s'
  end.

(** [p in s]: substring test. *)
Fixpoint contains (p s : pystr) : bool :=
  starts_with p s ||
  match s with
  | [] => false
  | _ :: s' => contains p s'
  end.

(** [sep.join(items)] on strings. *)
Fixpoint join (sep : pystr) (items : list pystr) : pystr :=
  match items with
  | [] => []
  | [x] => x
  | x :: rest => x ++ sep ++ join sep rest
  end.

(** [s.replace(c, new)] for a one-character pattern [c]. *)
Definition replace_char (c : N) (new : pystr) (s : pystr) : pystr :=
  flat_map (fun x => if (x =? c)%N then new else [x]) s.

(** [str.isspace] on one code point: the characters [str.strip()]
    removes. *)
Definition is_space (c : N) : bool :=
  ((9 <=? c) && (c <=? 13) || (28 <=? c) && (c <=? 32)
   || (c =? 133) || (c =? 160) || (c =? 5760)
   || (8192 <=? c) && (c <=? 8202)
   || (c =? 8232) || (c =? 8233) || (c =? 8239) || (c =? 8287)
   || (c =? 12288))%N.

Fixpoint lstrip (s : pystr) : pystr :=
  match s with
  | [] => []
  | c :: s' => if is_space c then lstrip s' else s
  end.

(** [s.strip()]. *)
Definition strip (s : pystr) : pystr := rev (lstrip (rev (lstrip s))).

(** Lower-casing of the ASCII letters; other code points are kept.  It is
    [str.lower] on ASCII text. *)
Definition ascii_lower (s : pystr) : pystr :=
  map (fun c => if ((65 <=? c) && (c <=? 90))%N then (c + 32)%N else c) s.

End PyStr.

Import PyStr.

(* ===================================================================== *)
(** ** Python values, exceptions and results                              *)
(* ===================================================================== *)

(** The values held by articles, stored documents and responses. *)
#[warnings="-register-all"]
Inductive value :=
| VNone
| VBool (b : bool)
| VInt (z : Z)
| VStr (s : pystr)
| VList (l : list value)
| VObjectId (hex : pystr).

(** A dict with string keys. *)
Abbreviation dict := (gmap string value).

(** Why a built-in operation raised. *)
Inductive fault :=
| NotSubscriptable (v : value)          (* v[:n] *)
| NoLen (v : value)                     (* len(v) *)
| BadConcat (l r : value)               (* l + r, l += r *)
| JoinItem (i : nat) (v : value)        (* sep.join: item i is not a str *)
| NoAttribute (v : value) (attr : string).

Inductive pyexn :=
| DatabaseError (msg : pystr)           (* raised by the store adapter *)
| TypeError (f : fault)
| AttributeError (f : fault).

(** The outcome of a computation that may raise. *)
Inductive res (A : Type) :=
| Ok (a : A)
| Raise (e : pyexn).
Arguments Ok {A} a.
Arguments Raise {A} e.

#[global] Instance res_ret : MRet res := fun A a => Ok a.
#[global] Instance res_bind : MBind res := fun A B f m =>
  match m with
  | Ok a => f a
  | Raise e => Raise e
  end.
#[global] Instance res_fmap : FMap res := fun A B f m =>
  match m with
  | Ok a => Ok (f a)
  | Raise e => Raise e
  end.

(** [for x in l: ys.append(f(x))], stopping at the first exception. *)
Fixpoint res_map {A B} (f : A -> res B) (l : list A) : res (list B) :=
  match l with
  | [] => Ok []
  | x :: l' => y ← f x; ys ← res_map f l'; Ok (y :: ys)
  end.

(** What the interpreter supplies and the handlers do not define: the
    Unicode case mapping of [str.lower], the text of [str(v)] for values
    that are not strings, and the message of a built-in exception. *)
Class PyRuntime := {
  str_lower : pystr -> pystr;
  py_repr : value -> pystr;
  fault_text : fault -> pystr;
}.

Section Builtins.
Context `{PyRuntime}.

(** Truth value of [v] in a condition. *)
Definition truthy (v : value) : bool :=
  match v with
  | VNone => false
  | VBool b => b
  | VInt z => negb (z =? 0)%Z
  | VStr s => match s with [] => false | _ => true end
  | VList l => match l with [] => false | _ => true end
  | VObjectId _ => true
  end.

(** [a or b]. *)
Definition py_or (a b : value) : value := if truthy a then a else b.

(** [str(v)], also what an f-string prints for [{v}]. *)
Definition py_str (v : value) : pystr :=
  match v with
  | VStr s => s
  | VNone => py "None"
  | VBool true => py "True"
  | VBool false => py "False"
  | VObjectId hex => hex
  | _ => py_repr v
  end.

(** [str(e)] for an exception [e]. *)
Definition exn_str (e : pyexn) : pystr :=
  match e with
  | DatabaseError msg => msg
  | TypeError f | AttributeError f => fault_text f
  end.

(** [d.get(k)] and [d.get(k, dflt)]. *)
Definition dict_get (d : dict) (k : string) : value :=
  default VNone (d !! k).
Definition dict_get_or (d : dict) (k : string) (dflt : value) : value :=
  default dflt (d !! k).

(** [{**a, **b}]: the keys of [b] win. *)
Definition dict_merge (a b : dict) : dict := b ∪ a.

(** [v[:n]]. *)
Definition py_slice_to (n : nat) (v : value) : res value :=
  match v with
  | VStr s => Ok (VStr (slice_to n s))
  | VList l => Ok (VList (take n l))
  | _ => Raise (TypeError (NotSubscriptable v))
  end.

(** [len(v)]. *)
Definition py_len (v : value) : res nat :=
  match v with
  | VStr s => Ok (length s)
  | VList l => Ok (length l)
  | _ => Raise (TypeError (NoLen v))
  end.

(** [a + b] and [a += b] on strings and lists. *)
Definition py_add (a b : value) : res value :=
  match a, b with
  | VStr s, VStr t => Ok (VStr (s ++ t))
  | VList l, VList m => Ok (VList (l ++ m))
  | _, _ => Raise (TypeError (BadConcat a b))
  end.

(** [v.lower()]. *)
Definition py_lower (v : value) : res pystr :=
  match v with
  | VStr s => Ok (str_lower s)
  | _ => Raise (AttributeError (NoAttribute v "lower"))
  end.

(** The check [sep.join] makes on its items, after all of them have been
    produced. *)
Fixpoint join_items (i : nat) (items : list value) : res (list pystr) :=
  match items with
  | [] => Ok []
  | VStr s :: rest => ss ← join_items (S i) rest; Ok (s :: ss)
  | v :: _ => Raise (TypeError (JoinItem i v))
  end.

Definition py_join (sep : pystr) (items : list value) : res pystr :=
  ss ← join_items 0 items; Ok (join sep ss).

End Builtins.

(** A runtime for ASCII text, to run the handlers on examples; [str] of
    integers and lists and the messages of built-in exceptions are
    placeholders there. *)
Definition ascii_runtime : PyRuntime := {|
  str_lower := ascii_lower;
  py_repr := fun _ => py "<repr>";
  fault_text := fun _ => py "<fault>";
|}.

(** How a request handler ends. *)
Inductive reply (A : Type) :=
| Reply (a : A)                                   (* return a *)
| HTTPError (status_code : Z) (detail : pystr)    (* raise HTTPException *)
| Unhandled (e : pyexn).                          (* an uncaught exception *)
Arguments Reply {A} a.
Arguments HTTPError {A} status_code detail.
Arguments Unhandled {A} e.

Definition reply_of {A} (r : res A) : reply A :=
  match r with
  | Ok a => Reply a
  | Raise e => Unhandled e
  end.

(** [dict] displays: [mkdict [(k1, v1); ...]] is [{k1: v1, ...}]. *)
Definition mkdict (kvs : list (string * value)) : dict :=
  foldl (fun d kv => <[kv.1 := kv.2]> d) ∅ kvs.

(* ===================================================================== *)
(** ** Request payloads                                                   *)
(* ===================================================================== *)

(** [Literal["en", "ur"]]. *)
Inductive lang := en | ur.

Definition lang_code (l : lang) : pystr :=
  match l with
  | en => py "en"
  | ur => py "ur"
  end.

(** [Literal["breaking", "important", "full"]]. *)
Inductive urgency_level := breaking | important | full.

Definition urgency_code (u : urgency_level) : pystr :=
  match u with
  | breaking => py "breaking"
  | important => py "important"
  | full => py "full"
  end.

Module IngestRequest.
Record t := { sources : list pystr; language : lang }.
End IngestRequest.

Module PersonalizeRequest.
Record t := {
  city : option pystr;
  interests : list pystr;
  urgency : urgency_level;
  language : lang;
}.
End PersonalizeRequest.

Module AudioRequest.
Record t := { text : pystr; language : lang }.
End AudioRequest.

(* ===================================================================== *)
(** ** Utility AI mock functions                                          *)
(* ===================================================================== *)

Section Mocks.
Context `{PyRuntime}.

Definition impact_en : pystr :=
  py "Potential impact on citizens and businesses to be monitored.".
Definition impact_ur : pystr :=
  py "شہریوں اور کاروبار پر ممکنہ اثرات کے لئے نظر رکھیں۔".

(** [ai_clean_and_summarize(article, language)].  The English bullets are
    built first, whatever the language; the Urdu branch then rebuilds
    them with [+]. *)
Definition ai_clean_and_summarize (article : dict) (language : pystr)
  : res dict :=
  let title := py_or (dict_get article "title") (VStr (py "Untitled")) in
  let content :=
    py_or (py_or (dict_get article "description") (dict_get article "content"))
          (VStr []) in
  t70 ← py_slice_to 70 title;
  let bullets := [
    VStr (py "Key point: " ++ py_str t70);
    VStr (py "Source: "
          ++ py_str (dict_get_or article "source" (VStr (py "unknown"))));
    VStr (py "Time: "
          ++ py_str (dict_get_or article "published_at" (VStr [])))
  ] in
  let impact := impact_en in
  '(bullets, impact) ←
    (if bool_decide (language = py "ur") then
       t70 ← py_slice_to 70 title;
       b1 ← py_add (VStr (py "اہم نقطہ: ")) t70;
       b2 ← py_add (VStr (py "سورس: "))
              (py_or (dict_get article "source") (VStr (py "نامعلوم")));
       b3 ← py_add (VStr (py "وقت: "))
              (py_or (VStr (py_str (dict_get article "published_at")))
                     (VStr []));
       Ok ([b1; b2; b3], impact_ur)
     else Ok (bullets, impact));
  Ok (mkdict [("bullets", VList (take 3 bullets)); ("impact", VStr impact)]).

Definition verified_words : list pystr :=
  [py "breaking"; py "official"; py "gov"].
Definition rumour_words : list pystr :=
  [py "rumour"; py "leak"; py "unconfirmed"].

(** [any(x in title for x in words)]. *)
Definition any_in (words : list pystr) (title : pystr) : bool :=
  existsb (fun x => contains x title) words.

Definition verdict (status : string) (score : Z) : dict :=
  mkdict [("fact_status", VStr (py status)); ("risk_score", VInt score)].

(** [ai_fact_check(article)]. *)
Definition ai_fact_check (article : dict) : res dict :=
  title ← py_lower (py_or (dict_get article "title") (VStr []));
  if any_in verified_words title then Ok (verdict "Verified" 5)
  else if any_in rumour_words title then Ok (verdict "Rumour" 65)
  else Ok (verdict "Unconfirmed" 30).

End Mocks.

(* ===================================================================== *)
(** ** The document store                                                 *)
(* ===================================================================== *)

(** One condition of a query filter: [{key: v}] or [{key: {"$in": vs}}]. *)
Inductive cond :=
| Equals (v : value)
| AnyOf (vs : list value).

Abbreviation query := (gmap string cond).

(** The two operations the handlers import from [database].  A call runs
    on a store state; [create_document] returns the new identifier or
    raises, and leaves a new state either way. *)
Class DocumentStore (Store : Type) := {
  create_document : pystr -> dict -> Store -> res value * Store;
  get_documents : pystr -> query -> nat -> Store -> res (list dict);
}.

(* ===================================================================== *)
(** ** Routes                                                             *)
(* ===================================================================== *)

Module IngestResponse.
Record t := { inserted : nat; ids : list value }.
End IngestResponse.

Module FeedResponse.
Record t := { count : nat; items : list dict }.
End FeedResponse.

Module AudioResponse.
Record t := { language : lang; audio_url : pystr; note : pystr }.
End AudioResponse.

Module DigestResponse.
Record t := {
  headlines : list value;
  summary_60s : pystr;
  items : list dict;
  business_economy : dict;
  global_affecting_pk : list pystr;
}.
End DigestResponse.

Definition strs (l : list string) : value := VList (map (fun s => VStr (py s)) l).

(** The stubbed articles of [ingest_news]; [clock i] is the i-th reading
    of [datetime.utcnow().isoformat()]. *)
Definition sample_articles (clock : nat -> pystr) : list dict := [
  mkdict [
    ("source", VStr (py "Dawn"));
    ("title", VStr (py "Breaking: Govt announces new economic policy"));
    ("url", VStr (py "https://www.dawn.com/sample1"));
    ("published_at", VStr (clock 0));
    ("city", VStr (py "Islamabad"));
    ("interests", strs ["economy"; "politics"])
  ];
  mkdict [
    ("source", VStr (py "Geo"));
    ("title", VStr (py "PSL updates: Lahore Qalandars clinch close match"));
    ("url", VStr (py "https://www.geo.tv/sample2"));
    ("published_at", VStr (clock 1));
    ("city", VStr (py "Lahore"));
    ("interests", strs ["sports"])
  ];
  mkdict [
    ("source", VStr (py "Express"));
    ("title",
     VStr (py "Technology jobs rising in Karachi's startup ecosystem"));
    ("url", VStr (py "https://www.express.pk/sample3"));
    ("published_at", VStr (clock 2));
    ("city", VStr (py "Karachi"));
    ("interests", strs ["tech"; "jobs"])
  ]
].

Definition audio_note : pystr :=
  py "Demo placeholder. Integrate a real TTS provider in production.".

(** [text_to_audio(payload)]. *)
Definition text_to_audio (payload : AudioRequest.t) : reply AudioResponse.t :=
  let txt := replace_char 10 (py " ") (AudioRequest.text payload) in
  let lang := AudioRequest.language payload in
  let data_url :=
    py "data:audio/wav;base64," ++ strip (py "UGFrR1BULWF1ZGlvLXBsYWNlaG9sZGVy") in
  Reply {| AudioResponse.language := lang;
           AudioResponse.audio_url := data_url;
           AudioResponse.note := audio_note |}.

Section Routes.
Context `{PyRuntime} {Store : Type} `{DocumentStore Store}.

(** The document composed for one article:
    [{**art, **summary, **check, "language": ..., "urgency": "important"}]. *)
Definition compose (art summary check : dict) (language : lang) : dict :=
  <["urgency" := VStr (py "important")]>
    (<["language" := VStr (lang_code language)]>
       (dict_merge (dict_merge art summary) check)).

(** The AI steps of one iteration of the loop of [ingest_news]. *)
Definition compose_article (art : dict) (language : lang) : res dict :=
  summary ← ai_clean_and_summarize art (lang_code language);
  check ← ai_fact_check art;
  Ok (compose art summary check language).

(** The loop of [ingest_news] over the articles still to process, with the
    identifiers created so far. *)
Fixpoint ingest_loop (language : lang) (arts : list dict)
    (created_ids : list value) (s : Store) : reply (list value) * Store :=
  match arts with
  | [] => (Reply created_ids, s)
  | art :: rest =>
    match compose_article art language with
    | Raise e => (Unhandled e, s)
    | Ok doc =>
      match create_document (py "newsitem") doc s with
      | (Ok _id, s') => ingest_loop language rest (created_ids ++ [_id]) s'
      | (Raise e, s') =>
          (HTTPError 500 (py "DB error: " ++ exn_str e), s')
      end
    end
  end.

(** [ingest_news(payload)]. *)
Definition ingest_news (payload : IngestRequest.t) (clock : nat -> pystr)
    (s : Store) : reply IngestResponse.t * Store :=
  match ingest_loop (IngestRequest.language payload) (sample_articles clock) [] s with
  | (Reply created_ids, s') =>
      (Reply {| IngestResponse.inserted := length created_ids;
                IngestResponse.ids := created_ids |}, s')
  | (HTTPError c d, s') => (HTTPError c d, s')
  | (Unhandled e, s') => (Unhandled e, s')
  end.

(** The filter [get_personalized_feed] builds from the preferences. *)
Definition feed_query (payload : PersonalizeRequest.t) : query :=
  let q : query := ∅ in
  let q :=
    match PersonalizeRequest.city payload with
    | Some c => if truthy (VStr c) then <["city" := Equals (VStr c)]> q else q
    | None => q
    end in
  let q :=
    match PersonalizeRequest.interests payload with
    | [] => q
    | l => <["interests" := AnyOf (map VStr l)]> q
    end in
  let q :=
    let u := VStr (urgency_code (PersonalizeRequest.urgency payload)) in
    if truthy u then <["urgency" := Equals u]> q else q in
  let q :=
    let l := VStr (lang_code (PersonalizeRequest.language payload)) in
    if truthy l then <["language" := Equals l]> q else q in
  q.

(** The block "Ensure bullets exactly 3" of [get_personalized_feed]:
    truncate a longer value, extend a shorter one with empty strings. *)
Definition ensure_three (bullets : value) : res value :=
  n ← py_len bullets;
  if 3 <? n then py_slice_to 3 bullets
  else if n <? 3 then py_add bullets (VList (replicate (3 - n) (VStr [])))
  else Ok bullets.

(** The body of the normalising loop of [get_personalized_feed]. *)
Definition normalize (d : dict) : res dict :=
  let d := <["id" := VStr (py_str (dict_get d "_id"))]> d in
  let d := delete "_id" d in
  let bullets := py_or (dict_get d "bullets") (VList []) in
  bullets ← ensure_three bullets;
  Ok (<["bullets" := bullets]> d).

(** [get_personalized_feed(payload)]. *)
Definition get_personalized_feed (payload : PersonalizeRequest.t) (s : Store)
  : reply FeedResponse.t :=
  let attempt :=
    docs ← get_documents (py "newsitem") (feed_query payload) 50 s;
    normalized ← res_map normalize docs;
    Ok {| FeedResponse.count := length normalized;
          FeedResponse.items := normalized |} in
  match attempt with
  | Ok r => Reply r
  | Raise e => HTTPError 500 (py "DB error: " ++ exn_str e)
  end.

Definition fallback_titles : list pystr := [
  py "Fiscal updates and market outlook";
  py "Security and regional developments";
  py "PSX morning momentum";
  py "Monsoon/weather advisory";
  py "Tech/startup funding news"
].

(** The simulated items of [morning_digest], one clock reading each. *)
Definition fallback_docs (clock : nat -> pystr) : list dict :=
  imap (fun i t =>
    mkdict [
      ("title", VStr t);
      ("source", VStr (py "PakGPT"));
      ("published_at", VStr (clock i));
      ("bullets", strs ["Key developments summarized";
                        "Numbers and context simplified";
                        "What to watch today"]);
      ("impact",
       VStr (py "Expect ripple effects for households and businesses."));
      ("fact_status", VStr (py "Unconfirmed"));
      ("risk_score", VInt 20)
    ]) fallback_titles.

(** The filter of the digest query, [{"language": language}]. *)
Definition digest_query (language : lang) : query :=
  {[ "language" := Equals (VStr (lang_code language)) ]}.

(** The documents the digest is built from: the query result, or the
    simulated items when the query raised or found nothing. *)
Definition digest_docs (language : lang) (limit : nat) (clock : nat -> pystr)
    (s : Store) : list dict :=
  let docs :=
    match get_documents (py "newsitem") (digest_query language) limit s with
    | Ok docs => docs
    | Raise _ => []
    end in
  match docs with
  | [] => fallback_docs clock
  | _ => docs
  end.

Definition urdu_trailer : pystr := py " آج کے اہم نکات کا خلاصہ۔".

(** [headlines] and [sixty_sec_summary]. *)
Definition digest_summary (language : lang) (docs : list dict)
  : res (list value * pystr) :=
  let headlines := take 10 (map (fun d => dict_get d "title") docs) in
  cut ← res_map (py_slice_to 60) headlines;
  joined ← py_join (py " ") cut;
  Ok (headlines,
      joined ++ (if bool_decide (lang_code language = py "en") then []
                 else urdu_trailer)).

(** One element of [items]. *)
Definition digest_item (d : dict) : res dict :=
  bullets ← py_slice_to 3 (py_or (dict_get d "bullets") (VList []));
  Ok (mkdict [
    ("title", dict_get d "title");
    ("bullets", bullets);
    ("impact", dict_get d "impact");
    ("why_it_matters", dict_get d "impact");
    ("source", dict_get d "source");
    ("published_at", dict_get d "published_at");
    ("fact_status", dict_get_or d "fact_status" (VStr (py "Unconfirmed")));
    ("risk_score", dict_get_or d "risk_score" (VInt 0))
  ]).

(** The response of [morning_digest] once [docs] is settled. *)
Definition digest_of (language : lang) (docs : list dict)
  : res DigestResponse.t :=
  '(headlines, sixty_sec_summary) ← digest_summary language docs;
  items ← res_map digest_item (take 10 docs);
  Ok {| DigestResponse.headlines := headlines;
        DigestResponse.summary_60s := sixty_sec_summary;
        DigestResponse.items := items;
        DigestResponse.business_economy :=
          mkdict [("snapshot",
                   VStr (py "FX, PSX, inflation, fuel updates at a glance."))];
        DigestResponse.global_affecting_pk :=
          [py "Oil prices and regional markets";
           py "US/China moves impacting trade"] |}.

(** [morning_digest(language, limit)]; the framework admits [limit] from 1
    to 20 only. *)
Definition morning_digest (language : lang) (limit : nat)
    (clock : nat -> pystr) (s : Store) : reply DigestResponse.t :=
  reply_of (digest_of language (digest_docs language limit clock s)).

End Routes.

(* ===================================================================== *)
(** ** An in-memory store                                                 *)
(* ===================================================================== *)

(** Equality of values, as [==] decides it on the values of the model. *)
Fixpoint value_eqb (a b : value) : bool :=
  match a, b with
  | VNone, VNone => true
  | VBool x, VBool y => Bool.eqb x y
  | VInt x, VInt y => (x =? y)%Z
  | VStr x, VStr y => bool_decide (x = y)
  | VObjectId x, VObjectId y => bool_decide (x = y)
  | VList l, VList m =>
      (fix all2 (l m : list value) : bool :=
         match l, m with
         | [], [] => true
         | x :: l', y :: m' => value_eqb x y && all2 l' m'
         | _, _ => false
         end) l m
  | _, _ => false
  end.

Module MemStore.

(** Modelled from the spec: the document store adapter of [database]
    (create and query documents by collection name and filter map), which
    is not among the sources.  This store keeps the saved documents in
    insertion order; [coming] scripts the next calls of
    [create_document]: the identifier to hand out, or the exception to
    raise; [down] makes every query raise.  The handlers and the general
    statements about them do not depend on it: it serves to run them. *)
Record t := {
  saved : list dict;
  coming : list (res pystr);
  down : bool;
}.

(** A filter condition on one stored field: equality, or membership for
    an array field. *)
Definition holds (field : option value) (c : cond) : bool :=
  match field, c with
  | None, _ => false
  | Some (VList l), Equals v =>
      value_eqb (VList l) v || existsb (fun x => value_eqb x v) l
  | Some x, Equals v => value_eqb x v
  | Some (VList l), AnyOf vs =>
      existsb (fun x => existsb (value_eqb x) vs) l
  | Some x, AnyOf vs => existsb (value_eqb x) vs
  end.

Definition matches (q : query) (d : dict) : bool :=
  forallb (fun kc => holds (d !! kc.1) kc.2) (map_to_list q).

Definition create (collection : pystr) (doc : dict) (s : t)
  : res value * t :=
  match coming s with
  | Ok hex :: rest =>
      (Ok (VStr hex),
       {| saved := saved s ++ [<["_id" := VObjectId hex]> doc];
          coming := rest; down := down s |})
  | Raise e :: rest =>
      (Raise e, {| saved := saved s; coming := rest; down := down s |})
  | [] => (Raise (DatabaseError (py "unavailable")), s)
  end.

Definition find (collection : pystr) (q : query) (limit : nat) (s : t)
  : res (list dict) :=
  if down s then Raise (DatabaseError (py "connection refused"))
  else Ok (take limit (filter (fun d => matches q d = true) (saved s))).

#[global] Instance store : DocumentStore t := {|
  create_document := create;
  get_documents := find;
|}.

Definition empty : t := {| saved := []; coming := []; down := false |}.

End MemStore.

(** Clock readings for the examples. *)
Definition clock0 (i : nat) : pystr :=
  py "2024-01-01T00:00:0" ++ [(48 + N.of_nat i)%N].

Definition three_ids : MemStore.t :=
  {| MemStore.saved := [];
     MemStore.coming := [Ok (py "a1"); Ok (py "a2"); Ok (py "a3")];
     MemStore.down := false |}.

(* ===================================================================== *)
(** ** Vocabulary of the statements                                       *)
(* ===================================================================== *)

(** [p] occurs in [s]. *)
Definition substring (p s : pystr) : Prop := ∃ a b, s = a ++ p ++ b.

(** A field that is a string, is [None], or is missing. *)
Definition text_or_missing (d : dict) (k : string) : Prop :=
  match d !! k with
  | None | Some VNone | Some (VStr _) => True
  | Some _ => False
  end.

(** A field that is a list, is [None], or is missing. *)
Definition list_or_missing (d : dict) (k : string) : Prop :=
  match d !! k with
  | None | Some VNone | Some (VList _) => True
  | Some _ => False
  end.

(** The value a computation returned, if it returned. *)
Definition returned {A} (r : res A) : option A :=
  match r with
  | Ok a => Some a
  | Raise _ => None
  end.

Definition replied {A} (r : reply A) : option A :=
  match r with
  | Reply a => Some a
  | _ => None
  end.

(** The texts of the summarizer, by language. *)
Definition key_label (l : lang) : pystr :=
  match l with en => py "Key point: " | ur => py "اہم نقطہ: " end.
Definition source_label (l : lang) : pystr :=
  match l with en => py "Source: " | ur => py "سورس: " end.
Definition time_label (l : lang) : pystr :=
  match l with en => py "Time: " | ur => py "وقت: " end.
Definition source_default (l : lang) : pystr :=
  match l with en => py "unknown" | ur => py "نامعلوم" end.
Definition impact_of (l : lang) : pystr :=
  match l with en => impact_en | ur => impact_ur end.

(** The sentence appended to the digest summary. *)
Definition trailer (language : lang) : pystr :=
  match language with
  | en => []
  | ur => urdu_trailer
  end.

(** The "audio_url" of every audio response. *)
Definition audio_constant : pystr :=
  py "data:audio/wav;base64,UGFrR1BULWF1ZGlvLXBsYWNlaG9sZGVy".

Section Runs.
Context `{PyRuntime} {Store : Type} `{DocumentStore Store}.

(** The articles processed without a failure: each composed and
    persisted, in order, taking the store from [s] to [s']. *)
Inductive persisted (language : lang)
  : list dict → Store → list value → Store → Prop :=
| persisted_nil s : persisted language [] s [] s
| persisted_cons art doc _id arts s s' ids s'' :
    compose_article art language = Ok doc →
    create_document (py "newsitem") doc s = (Ok _id, s') →
    persisted language arts s' ids s'' →
    persisted language (art :: arts) s (_id :: ids) s''.

End Runs.

(* ===================================================================== *)
(** ** Sample data                                                        *)
(* ===================================================================== *)

Definition en_request : IngestRequest.t :=
  {| IngestRequest.sources := [py "dawn"]; IngestRequest.language := en |}.

Definition lahore_request : PersonalizeRequest.t :=
  {| PersonalizeRequest.city := Some (py "Lahore");
     PersonalizeRequest.interests := [];
     PersonalizeRequest.urgency := important;
     PersonalizeRequest.language := en |}.

(** A request for the important stories in English, from anywhere. *)
Definition plain_request : PersonalizeRequest.t :=
  {| PersonalizeRequest.city := None;
     PersonalizeRequest.interests := [];
     PersonalizeRequest.urgency := important;
     PersonalizeRequest.language := en |}.

(** A store whose second insertion fails. *)
Definition second_fails : MemStore.t :=
  {| MemStore.saved := [];
     MemStore.coming := [Ok (py "a1"); Raise (DatabaseError (py "disk full"))];
     MemStore.down := false |}.

(** The i-th stubbed article at [clock0], and the document composed
    for it in English. *)
Definition stub (i : nat) : dict := default ∅ (sample_articles clock0 !! i).

Definition stub_doc (i : nat) : dict :=
  match compose_article (H := ascii_runtime) (stub i) en with
  | Ok doc => doc
  | Raise _ => ∅
  end.

Definition after_first : MemStore.t :=
  {| MemStore.saved := [<["_id" := VObjectId (py "a1")]> (stub_doc 0)];
     MemStore.coming := [Raise (DatabaseError (py "disk full"))];
     MemStore.down := false |}.

Definition after_failure : MemStore.t :=
  {| MemStore.saved := [<["_id" := VObjectId (py "a1")]> (stub_doc 0)];
     MemStore.coming := [];
     MemStore.down := false |}.

(** A stored story with a single bullet. *)
Definition short_doc : dict :=
  mkdict [("title", VStr (py "Budget session today"));
          ("language", VStr (py "en"));
          ("urgency", VStr (py "important"));
          ("bullets", strs ["Only point"])].

(** A stored story with five bullets and a long title. *)
Definition long_title : pystr :=
  py "State Bank keeps the policy rate unchanged as inflation eases further".

Definition long_doc : dict :=
  mkdict [("title", VStr long_title);
          ("language", VStr (py "en"));
          ("urgency", VStr (py "important"));
          ("bullets", strs ["One"; "Two"; "Three"; "Four"; "Five"])].

(** Stored stories with and without a title. *)
Definition titled : dict :=
  mkdict [("title", VStr (py "Story")); ("language", VStr (py "en"));
          ("urgency", VStr (py "important"))].
Definition untitled : dict := mkdict [("language", VStr (py "en"))].

Definition eleven_docs : list dict := replicate 10 titled ++ [untitled].

Definition holding (docs : list dict) : MemStore.t :=
  {| MemStore.saved := docs; MemStore.coming := []; MemStore.down := false |}.

Definition out_of_reach : MemStore.t :=
  {| MemStore.saved := [short_doc]; MemStore.coming := [];
     MemStore.down := true |}.

Definition leak_story : dict :=
  mkdict [("title", VStr (py "Official LEAK: cabinet notes"));
          ("source", VStr (py "Dawn"));
          ("published_at", VStr (py "2024-01-01T00:00:00"))].

(** An article whose title is a number. *)
Definition numbered : dict := mkdict [("title", VInt 7)].

(** The fields of a summary, when the summarizer returned one. *)
Definition summary_of (article : dict) (language : pystr)
  : option (option value * option value) :=
  (λ d : dict, (d !! "bullets", d !! "impact"))
    <$> returned (ai_clean_and_summarize (H := ascii_runtime) article language).

(* ===================================================================== *)
(** ** The diagnostics route                                              *)
(* ===================================================================== *)

(** The handle [db] of [database], as [test_database] uses it: reading
    its attribute [name] and calling [list_collection_names()] return a
    value or raise. *)
Module Database.
Record t := {
  name : res value;
  list_collection_names : res value;
}.
End Database.

(** [getattr(o, attr, dflt)], given the outcome of reading the attribute:
    an [AttributeError] gives the default, another exception is raised. *)
Definition py_getattr (attr : res value) (dflt : value) : res value :=
  match attr with
  | Raise (AttributeError _) => Ok dflt
  | r => r
  end.

(** The truth value of [os.getenv(k)]: set and not empty. *)
Definition env_set (getenv : string -> option pystr) (k : string) : bool :=
  match getenv k with
  | Some (_ :: _) => true
  | _ => false
  end.

Section Diagnostics.
Context `{PyRuntime}.

(** [test_database()], for the global [db] ([None] when the store is not
    initialised) and the process environment. *)
Definition test_database (db : option Database.t)
    (getenv : string -> option pystr) : dict :=
  let response := mkdict [
    ("backend", VStr (py "✅ Running"));
    ("database", VStr (py "❌ Not Available"));
    ("database_url", VNone);
    ("database_name", VNone);
    ("connection_status", VStr (py "Not Connected"));
    ("collections", VList [])
  ] in
  let response :=
    match db with
    | Some db =>
      let response := <["database" := VStr (py "✅ Available")]> response in
      let response :=
        <["database_url" := VStr (py "✅ Configured")]> response in
      match py_getattr (Database.name db) (VStr (py "✅ Connected")) with
      | Raise e =>
          <["database" :=
              VStr (py "❌ Error: " ++ slice_to 50 (exn_str e))]> response
      | Ok db_name =>
        let response := <["database_name" := db_name]> response in
        let response :=
          <["connection_status" := VStr (py "Connected")]> response in
        match (collections ← Database.list_collection_names db;
               py_slice_to 10 collections) with
        | Ok cut =>
            <["database" := VStr (py "✅ Connected & Working")]>
              (<["collections" := cut]> response)
        | Raise e =>
            <["database" :=
                VStr (py "⚠️  Connected but Error: "
                      ++ slice_to 50 (exn_str e))]> response
        end
      end
    | None =>
        <["database" := VStr (py "⚠️  Available but not initialized")]> response
    end in
  let response :=
    <["database_url" :=
        VStr (if env_set getenv "DATABASE_URL" then py "✅ Set"
              else py "❌ Not Set")]> response in
  let response :=
    <["database_name" :=
        VStr (if env_set getenv "DATABASE_NAME" then py "✅ Set"
              else py "❌ Not Set")]> response in
  response.

End Diagnostics.
(* ===================================================================== *)
(** ** The NewsItem schema                                                *)
(* ===================================================================== *)

Definition is_text (v : value) : bool :=
  match v with VStr _ => true | _ => false end.

Definition is_text_list (v : value) : bool :=
  match v with VList l => forallb is_text l | _ => false end.

Definition is_one_of (options : list pystr) (v : value) : bool :=
  match v with VStr s => bool_decide (s ∈ options) | _ => false end.

Definition is_int_within (lo hi : Z) (v : value) : bool :=
  match v with VInt z => (lo <=? z)%Z && (z <=? hi)%Z | _ => false end.

(** A field declared [Field(...)] must be there; one declared
    [Optional[T] = None] may be missing or [None]; one declared with a
    default may be missing. *)
Definition required (p : value -> bool) (field : option value) : bool :=
  match field with Some v => p v | None => false end.
Definition optional (p : value -> bool) (field : option value) : bool :=
  match field with None | Some VNone => true | Some v => p v end.
Definition defaulted (p : value -> bool) (field : option value) : bool :=
  match field with None => true | Some v => p v end.

(** The field declarations of [NewsItem] in [schemas.py], read strictly:
    each value already has its declared type (no coercion).  The field
    [published_at], a [datetime], is not checked. *)
Definition NewsItem (d : dict) : bool :=
  required is_text (d !! "source")
  && required is_text (d !! "title")
  && required is_text (d !! "url")
  && optional is_text (d !! "city")
  && defaulted is_text_list (d !! "interests")
  && defaulted (is_one_of [py "breaking"; py "important"; py "full"])
       (d !! "urgency")
  && defaulted (is_one_of [py "en"; py "ur"]) (d !! "language")
  && defaulted is_text_list (d !! "bullets")
  && defaulted is_text (d !! "impact")
  && defaulted (is_one_of [py "Verified"; py "Unconfirmed"; py "Rumour"])
       (d !! "fact_status")
  && optional (is_int_within 0 100) (d !! "risk_score")
  && optional is_text (d !! "thumbnail")
  && optional is_text (d !! "source_id").

(* ===================================================================== *)
(** ** More vocabulary and sample data                                    *)
(* ===================================================================== *)

(** The bullets of a summary, when the summarizer returned one. *)
Definition bullets_of (r : res dict) : option (list value) :=
  match returned r with
  | Some d => match d !! "bullets" with
              | Some (VList l) => Some l
              | _ => None
              end
  | None => None
  end.

(** Bullet [i] (from 0) of a summary. *)
Definition bullet (i : nat) (r : res dict) : option value :=
  match bullets_of r with
  | Some l => l !! i
  | None => None
  end.

(** The bullets [normalize] can bring to length 3: a list, a string of
    at least 3 characters, or a falsy value (replaced by the empty
    list). *)
Definition fixable (bullets : value) : bool :=
  match bullets with
  | VList _ => true
  | VStr [] => true
  | VStr s => 3 <=? length s
  | v => negb (truthy v)
  end.

(** The articles the summarizer accepts.  The title read is
    [article.get("title") or "Untitled"]; English output needs it
    sliceable; Urdu output concatenates, so it needs a string title, and a
    source that is a string or falsy. *)
Definition summarizable (article : dict) (language : pystr) : bool :=
  match py_or (dict_get article "title") (VStr (py "Untitled")) with
  | VStr _ =>
      if bool_decide (language = py "ur") then
        match py_or (dict_get article "source") (VStr (py "نامعلوم")) with
        | VStr _ => true
        | _ => false
        end
      else true
  | VList _ => negb (bool_decide (language = py "ur"))
  | _ => false
  end.

(** An article with its own urgency, language and verdict, and a body. *)
Definition loud_story : dict :=
  mkdict [("title", VStr (py "Rumour: fuel prices to change"));
          ("source", VStr (py "Geo"));
          ("url", VStr (py "https://www.geo.tv/fuel"));
          ("urgency", VStr (py "breaking"));
          ("language", VStr (py "fr"));
          ("fact_status", VStr (py "Verified"));
          ("description", VStr (py "A long description."))].

(** The Urdu summary of the first stubbed article at [clock0]. *)
Definition stub_summary : dict :=
  match ai_clean_and_summarize (H := ascii_runtime) (stub 0) (py "ur") with
  | Ok d => d
  | Raise _ => ∅
  end.

(** A source that is there but [None], or empty. *)
Definition anonymous_story : dict :=
  mkdict [("title", VStr (py "Story")); ("source", VNone)].
Definition unsigned_story : dict :=
  mkdict [("title", VStr (py "Story")); ("source", VStr [])].

(** The feed served from a store holding two stories. *)
Definition fed : FeedResponse.t :=
  match get_personalized_feed (H := ascii_runtime) plain_request
          (holding [short_doc; long_doc]) with
  | Reply r => r
  | _ => {| FeedResponse.count := 0; FeedResponse.items := [] |}
  end.

(** The digest served from a store holding eleven stories, and the
    digest item of a story without a title. *)
Definition digested : DigestResponse.t :=
  match morning_digest en 20 clock0 (holding eleven_docs) with
  | Reply r => r
  | _ => {| DigestResponse.headlines := []; DigestResponse.summary_60s := [];
            DigestResponse.items := []; DigestResponse.business_economy := ∅;
            DigestResponse.global_affecting_pk := [] |}
  end.


(** A stored story whose bullets are a number. *)
Definition broken_doc : dict :=
  mkdict [("title", VStr (py "Story")); ("language", VStr (py "en"));
          ("urgency", VStr (py "important")); ("bullets", VInt 3);
          ("_id", VObjectId (py "b1"))].

(** A store handle that lists twelve collections, one whose listing
    fails, and an environment with the URL set. *)
Definition twelve : Database.t :=
  {| Database.name := Ok (VStr (py "pakgpt"));
     Database.list_collection_names :=
       Ok (VList (replicate 12 (VStr (py "newsitem")))) |}.

Definition failing_db : Database.t :=
  {| Database.name := Raise (AttributeError (NoAttribute VNone "name"));
     Database.list_collection_names :=
       Raise (DatabaseError (replicate 80 120%N)) |}.

Definition url_only (k : string) : option pystr :=
  if bool_decide (k = "DATABASE_URL") then Some (py "mongodb://localhost")
  else if bool_decide (k = "DATABASE_NAME") then Some []
  else None.

(* ===================================================================== *)
(** * Properties                                                          *)
(* ===================================================================== *)

(** ** Text operations *)

(** The non-ASCII literals of [main.py] have the lengths Python gives
    them. *)
Example py_literal_lengths :
  map length [py "اہم نقطہ: "; py "سورس: "; py "نامعلوم"; py "وقت: ";
              impact_ur; urdu_trailer]
  = [10; 6; 7; 5; 51; 25].
Proof. reflexivity. Qed.

Example py_literal_codes : py "وقت: " = [1608; 1602; 1578; 58; 32]%N.
Proof. reflexivity. Qed.

Lemma starts_with_spec (p s : pystr) :
  starts_with p s = true ↔ ∃ b, s = p ++ b.
Proof.
  revert s. induction p as [|c p IH]; intros s; simpl.
  - split; [intros _; by exists s | done].
  - destruct s as [|d s]; simpl.
    + split; [done | intros [b Hb]; discriminate].
    + rewrite andb_true_iff, N.eqb_eq, IH. split.
      * intros [-> [b ->]]. by exists b.
      * intros [b Hb]. injection Hb as -> ->. eauto.
Qed.

Lemma contains_spec (p s : pystr) : contains p s = true ↔ substring p s.
Proof.
  unfold substring. induction s as [|d s IH]; simpl.
  - rewrite orb_false_r, starts_with_spec. split.
    + intros [b Hb]. by exists [], b.
    + intros (a & b & Hab). destruct a; [by exists b|discriminate].
  - rewrite orb_true_iff, starts_with_spec, IH. split.
    + intros [[b Hb]|(a & b & ->)]; [by exists [], b | by exists (d :: a), b].
    + intros (a & b & Hab). destruct a as [|x a]; simpl in Hab.
      * left. by exists b.
      * right. injection Hab as -> ->. by exists a, b.
Qed.

Lemma any_in_spec (words : list pystr) (t : pystr) :
  any_in words t = true ↔ ∃ w, w ∈ words ∧ substring w t.
Proof.
  unfold any_in. rewrite existsb_exists. split.
  - intros (w & Hin & Hc). exists w. by rewrite list_elem_of_In, <- contains_spec.
  - intros (w & Hin & Hc). exists w. by rewrite <- list_elem_of_In, contains_spec.
Qed.

Lemma length_slice_to (n : nat) (s : pystr) :
  length (slice_to n s) = min n (length s).
Proof. apply length_take. Qed.

Lemma lang_code_ur (l : lang) :
  bool_decide (lang_code l = py "ur") = match l with en => false | ur => true end.
Proof. by destruct l. Qed.

Lemma lang_code_en (l : lang) :
  bool_decide (lang_code l = py "en") = match l with en => true | ur => false end.
Proof. by destruct l. Qed.

Lemma py_or_str_self (s : pystr) : py_or (VStr s) (VStr []) = VStr s.
Proof. by destruct s. Qed.

Lemma text_or_default (d : dict) (k : string) (dflt : pystr) :
  text_or_missing d k → ∃ t, py_or (dict_get d k) (VStr dflt) = VStr t.
Proof.
  unfold text_or_missing, dict_get, py_or.
  destruct (d !! k) as [[| | |s| |]|]; simpl; try done; eauto.
  destruct s; simpl; eauto.
Qed.

Lemma lookup_map {A B} (f : A → B) (l : list A) (i : nat) :
  map f l !! i = f <$> (l !! i).
Proof. revert i. induction l as [|x l IH]; intros [|i]; simpl; auto. Qed.

(** ** Dict displays *)

Lemma mkdict_lookup2 (k1 k2 k : string) (v1 v2 : value) :
  k ≠ k1 → k ≠ k2 → mkdict [(k1, v1); (k2, v2)] !! k = None.
Proof.
  intros ? ?. unfold mkdict. cbn [foldl fst snd].
  by rewrite !lookup_insert_ne, lookup_empty.
Qed.

Lemma mkdict_lookup2_fst (k1 k2 : string) (v1 v2 : value) :
  k1 ≠ k2 → mkdict [(k1, v1); (k2, v2)] !! k1 = Some v1.
Proof.
  intros ?. unfold mkdict. cbn [foldl fst snd].
  by rewrite lookup_insert_ne, lookup_insert_eq.
Qed.

Lemma mkdict_lookup2_snd (k1 k2 : string) (v1 v2 : value) :
  mkdict [(k1, v1); (k2, v2)] !! k2 = Some v2.
Proof. unfold mkdict. cbn [foldl fst snd]. apply lookup_insert_eq. Qed.

(** ** Loops that may raise *)

Lemma res_map_Ok {A B} (f : A → res B) (l : list A) (ys : list B) :
  res_map f l = Ok ys ↔ Forall2 (λ x y, f x = Ok y) l ys.
Proof.
  revert ys. induction l as [|x l IH]; intros ys; simpl.
  - split.
    + intros [= <-]. constructor.
    + intros Hf. by inversion Hf.
  - split.
    + destruct (f x) as [y|e] eqn:Hx; [|done]. cbn [mbind res_bind].
      destruct (res_map f l) as [ys'|e] eqn:Hl; [|done]. cbn [mbind res_bind].
      intros [= <-]. constructor; [done|]. by apply IH.
    + intros Hf. inversion Hf as [|? y ? ys' Hx Hl]; subst.
      rewrite Hx. cbn [mbind res_bind].
      apply IH in Hl. rewrite Hl. reflexivity.
Qed.

Lemma res_map_total {A B} (f : A → res B) (l : list A) :
  Forall (λ x, ∃ y, f x = Ok y) l → ∃ ys, res_map f l = Ok ys.
Proof.
  induction 1 as [|x l [y Hy] _ [ys Hys]]; simpl.
  - by exists [].
  - exists (y :: ys). by rewrite Hy, Hys.
Qed.

Lemma res_map_length {A B} (f : A → res B) (l : list A) (ys : list B) :
  res_map f l = Ok ys → length ys = length l.
Proof. rewrite res_map_Ok. intros Hf. symmetry. by eapply Forall2_length. Qed.

(** ** The in-memory store *)

Lemma filter_all {A} (P : A → Prop) `{∀ x, Decision (P x)} (l : list A) :
  Forall P l → filter P l = l.
Proof.
  induction 1 as [|x l Hx _ IH]; [done|].
  by rewrite filter_cons_True, IH.
Qed.

(** A query that every saved document matches, with room for all of
    them, returns the saved documents in insertion order. *)
Lemma find_all (collection : pystr) (q : query) (limit : nat)
    (s : MemStore.t) :
  MemStore.down s = false →
  length (MemStore.saved s) ≤ limit →
  forallb (MemStore.matches q) (MemStore.saved s) = true →
  MemStore.find collection q limit s = Ok (MemStore.saved s).
Proof.
  intros Hup Hroom Hall. unfold MemStore.find. rewrite Hup. f_equal.
  rewrite filter_all.
  - by apply take_ge.
  - apply Forall_forall. intros d Hd.
    rewrite forallb_forall in Hall. apply Hall. by apply list_elem_of_In.
Qed.

(* ===================================================================== *)
(** ** The fact classifier                                                *)
(* ===================================================================== *)

Section FactCheck.
Context `{PyRuntime}.

(** C2.  Let [t] be the title the classifier reads ([article.get("title")
    or ""]).  If the lower-cased title contains one of "breaking",
    "official", "gov", the verdict is "Verified" with risk score 5, whether
    or not a rumour keyword occurs too; otherwise, if it contains one of
    "rumour", "leak", "unconfirmed", the verdict is "Rumour" with score 65;
    otherwise it is "Unconfirmed" with score 30. *)
Theorem ai_fact_check_rules (article : dict) (t : pystr) :
  py_or (dict_get article "title") (VStr []) = VStr t →
  let hit words := ∃ w, w ∈ words ∧ substring w (str_lower t) in
  (hit verified_words →
     ai_fact_check article = Ok (verdict "Verified" 5)) ∧
  (hit verified_words → hit rumour_words →
     ai_fact_check article = Ok (verdict "Verified" 5)) ∧
  (¬ hit verified_words → hit rumour_words →
     ai_fact_check article = Ok (verdict "Rumour" 65)) ∧
  (¬ hit verified_words → ¬ hit rumour_words →
     ai_fact_check article = Ok (verdict "Unconfirmed" 30)).
Proof.
  intros Ht hit. subst hit. cbv beta. rewrite <- !any_in_spec.
  unfold ai_fact_check. rewrite Ht. cbn [py_lower mbind res_bind].
  destruct (any_in verified_words (str_lower t)),
           (any_in rumour_words (str_lower t)); repeat split; try done.
Qed.

(** The verdicts, read field by field. *)
Lemma verdict_fields (status : string) (score : Z) :
  verdict status score !! "fact_status" = Some (VStr (py status)) ∧
  verdict status score !! "risk_score" = Some (VInt score).
Proof.
  unfold verdict. split; [by apply mkdict_lookup2_fst|].
  apply mkdict_lookup2_snd.
Qed.

Lemma ai_fact_check_total (article : dict) :
  text_or_missing article "title" →
  ∃ status score, ai_fact_check article = Ok (verdict status score).
Proof.
  intros Ht. destruct (text_or_default article "title" [] Ht) as [t Heq].
  unfold ai_fact_check. rewrite Heq. cbn [py_lower mbind res_bind].
  destruct (any_in verified_words _); [by eauto|].
  destruct (any_in rumour_words _); by eauto.
Qed.

(** A title that is neither a string nor falsy has no [lower]. *)
Lemma ai_fact_check_not_text (article : dict) (v : value) :
  py_or (dict_get article "title") (VStr []) = v →
  (∀ t, v ≠ VStr t) →
  ai_fact_check article = Raise (AttributeError (NoAttribute v "lower")).
Proof.
  intros <- Hv. unfold ai_fact_check.
  destruct (py_or _ _) as [| | |t| |]; try done. by destruct (Hv t).
Qed.

End FactCheck.

Lemma ai_fact_check_rules_witness :
  py_or (dict_get leak_story "title") (VStr [])
  = VStr (py "Official LEAK: cabinet notes") ∧
  ai_fact_check (H := ascii_runtime) leak_story = Ok (verdict "Verified" 5).
Proof.
  split; [vm_compute; reflexivity|].
  apply (ai_fact_check_rules (H := ascii_runtime) leak_story
           (py "Official LEAK: cabinet notes")).
  - vm_compute; reflexivity.
  - exists (py "official"). split.
    + unfold verified_words. set_solver.
    + apply contains_spec. vm_compute; reflexivity.
  - exists (py "leak"). split.
    + unfold rumour_words. set_solver.
    + apply contains_spec. vm_compute; reflexivity.
Defined.

Example fact_check_samples :
  map (λ art, (.!! "fact_status") <$> returned (ai_fact_check (H := ascii_runtime) art))
      (sample_articles clock0)
  = [Some (Some (VStr (py "Verified")));
     Some (Some (VStr (py "Unconfirmed")));
     Some (Some (VStr (py "Unconfirmed")))].
Proof. vm_compute. reflexivity. Qed.

Example fact_check_numbered :
  ai_fact_check (H := ascii_runtime) numbered
  = Raise (AttributeError (NoAttribute (VInt 7) "lower")).
Proof. vm_compute. reflexivity. Qed.

(* ===================================================================== *)
(** ** The summarizer                                                     *)
(* ===================================================================== *)

Section Summarizer.
Context `{PyRuntime}.

(** C7.  For an article whose title and source are strings (or [None], or
    missing) and for either language, the summarizer returns: three
    bullets and the impact sentence of the language.  Bullet 1 is the
    "Key point" label of the language followed by the first 70 characters
    of the title ([article.get("title") or "Untitled"]); bullet 2 is the
    source label followed by the source name, or by "unknown" / "نامعلوم"
    when the article has no source; bullet 3 is the time label followed by
    the publication timestamp. *)
Theorem ai_clean_and_summarize_spec (article : dict) (l : lang) :
  text_or_missing article "title" →
  text_or_missing article "source" →
  ∃ t b2 b3,
    py_or (dict_get article "title") (VStr (py "Untitled")) = VStr t ∧
    ai_clean_and_summarize article (lang_code l) =
      Ok (mkdict [
        ("bullets", VList [VStr (key_label l ++ slice_to 70 t);
                           VStr (source_label l ++ b2);
                           VStr (time_label l ++ b3)]);
        ("impact", VStr (impact_of l))]) ∧
    (∀ s, article !! "title" = Some (VStr s) → s ≠ [] → t = s) ∧
    (article !! "source" = None → b2 = source_default l) ∧
    (∀ s, article !! "source" = Some (VStr s) → s ≠ [] → b2 = s) ∧
    (∀ v, article !! "published_at" = Some v → b3 = py_str v).
Proof.
  intros Htitle Hsource.
  destruct (text_or_default article "title" (py "Untitled") Htitle) as [t Ht].
  exists t. unfold ai_clean_and_summarize. rewrite Ht, lang_code_ur.
  cbn [py_slice_to mbind res_bind].
  assert (Hts : ∀ s, article !! "title" = Some (VStr s) → s ≠ [] → t = s).
  { intros s Hs Hne. unfold dict_get in Ht. rewrite Hs in Ht.
    destruct s; [contradiction|]. injection Ht as <-. reflexivity. }
  destruct l.
  - exists (py_str (dict_get_or article "source" (VStr (py "unknown")))),
           (py_str (dict_get_or article "published_at" (VStr []))).
    split; [reflexivity|]. split; [|split; [exact Hts|]].
    { cbn [mbind res_bind take key_label source_label time_label impact_of
           py_str]. reflexivity. }
    unfold dict_get_or. split; [|split].
    + intros Hs. rewrite Hs. reflexivity.
    + intros s Hs _. rewrite Hs. reflexivity.
    + intros v Hv. rewrite Hv. reflexivity.
  - destruct (text_or_default article "source" (py "نامعلوم") Hsource)
      as [b2 Hb2].
    rewrite Hb2. cbn [py_add mbind res_bind].
    exists b2, (py_str (dict_get article "published_at")).
    split; [reflexivity|]. split; [|split; [exact Hts|]].
    + rewrite py_or_str_self.
      cbn [py_add mbind res_bind take key_label source_label time_label
           impact_of py_str]. reflexivity.
    + unfold dict_get in *. split; [|split].
      * intros Hs. rewrite Hs in Hb2. injection Hb2 as <-. reflexivity.
      * intros s Hs Hne. rewrite Hs in Hb2.
        destruct s; [contradiction|]. injection Hb2 as <-. reflexivity.
      * intros v Hv. rewrite Hv. reflexivity.
Qed.

(** On an article with a textual title and source the summarizer
    returns three bullets and the impact sentence of the language. *)
Lemma ai_clean_and_summarize_total (article : dict) (l : lang) :
  text_or_missing article "title" →
  text_or_missing article "source" →
  ∃ b1 b2 b3,
    ai_clean_and_summarize article (lang_code l) =
      Ok (mkdict [("bullets", VList [b1; b2; b3]);
                  ("impact", VStr (impact_of l))]).
Proof.
  intros Htitle Hsource.
  destruct (text_or_default article "title" (py "Untitled") Htitle) as [t Ht].
  unfold ai_clean_and_summarize. rewrite Ht, lang_code_ur.
  cbn [py_slice_to mbind res_bind]. destruct l.
  - eexists _, _, _. cbn [mbind res_bind take impact_of]. reflexivity.
  - destruct (text_or_default article "source" (py "نامعلوم") Hsource)
      as [b2 Hb2].
    rewrite Hb2. cbn [py_add mbind res_bind].
    destruct (py_or (VStr (py_str (dict_get article "published_at"))) (VStr []))
      as [| | |b3| |] eqn:Hb3;
      try (unfold py_or in Hb3;
           destruct (truthy (VStr (py_str (dict_get article "published_at"))));
           discriminate).
    eexists _, _, _. cbn [py_add mbind res_bind take impact_of]. reflexivity.
Qed.

(** A title that cannot be sliced makes the summarizer raise, in either
    language: the English bullets are built first. *)
Lemma ai_clean_and_summarize_not_text (article : dict) (z : Z) (language : pystr) :
  article !! "title" = Some (VInt z) → z ≠ 0%Z →
  ai_clean_and_summarize article language
  = Raise (TypeError (NotSubscriptable (VInt z))).
Proof.
  intros Ht Hz. unfold ai_clean_and_summarize.
  replace (py_or (dict_get article "title") (VStr (py "Untitled")))
    with (VInt z); [by cbn [py_slice_to mbind res_bind]|].
  unfold dict_get, py_or. rewrite Ht. cbn -[py].
  destruct (Z.eqb_spec z 0); [contradiction | reflexivity].
Qed.

End Summarizer.


Lemma ai_clean_and_summarize_spec_witness :
  text_or_missing leak_story "title" ∧
  text_or_missing leak_story "source" ∧
  ∃ t b2 b3,
    py_or (dict_get leak_story "title") (VStr (py "Untitled")) = VStr t ∧
    ai_clean_and_summarize (H := ascii_runtime) leak_story (lang_code ur) =
      Ok (mkdict [
        ("bullets", VList [VStr (key_label ur ++ slice_to 70 t);
                           VStr (source_label ur ++ b2);
                           VStr (time_label ur ++ b3)]);
        ("impact", VStr (impact_of ur))]) ∧
    (∀ s, leak_story !! "title" = Some (VStr s) → s ≠ [] → t = s) ∧
    (leak_story !! "source" = None → b2 = source_default ur) ∧
    (∀ s, leak_story !! "source" = Some (VStr s) → s ≠ [] → b2 = s) ∧
    (∀ v, leak_story !! "published_at" = Some v
          → b3 = py_str (H := ascii_runtime) v).
Proof.
  assert (Ht : text_or_missing leak_story "title") by (vm_compute; exact I).
  assert (Hs : text_or_missing leak_story "source") by (vm_compute; exact I).
  split; [exact Ht|]. split; [exact Hs|].
  exact (ai_clean_and_summarize_spec (H := ascii_runtime) leak_story ur Ht Hs).
Defined.

Example summarize_leak_story_ur :
  summary_of leak_story (py "ur")
  = Some (Some (VList [VStr (py "اہم نقطہ: Official LEAK: cabinet notes");
                       VStr (py "سورس: Dawn");
                       VStr (py "وقت: 2024-01-01T00:00:00")]),
          Some (VStr impact_ur)).
Proof. vm_compute. reflexivity. Qed.

Example summarize_empty_article_en :
  summary_of ∅ (py "en")
  = Some (Some (VList [VStr (py "Key point: Untitled");
                       VStr (py "Source: unknown");
                       VStr (py "Time: ")]),
          Some (VStr impact_en)).
Proof. vm_compute. reflexivity. Qed.

Example summarize_empty_article_ur :
  summary_of ∅ (py "ur")
  = Some (Some (VList [VStr (py "اہم نقطہ: Untitled");
                       VStr (py "سورس: نامعلوم");
                       VStr (py "وقت: None")]),
          Some (VStr impact_ur)).
Proof. vm_compute. reflexivity. Qed.

Example summarize_numbered :
  ai_clean_and_summarize (H := ascii_runtime) numbered (py "en")
  = Raise (TypeError (NotSubscriptable (VInt 7))).
Proof. vm_compute. reflexivity. Qed.

(* ===================================================================== *)
(** ** Bullets in the feed and in the digest                              *)
(* ===================================================================== *)

Section Bullets.
Context `{PyRuntime} {Store : Type} `{DocumentStore Store}.

Lemma normalize_unfold (d : dict) :
  normalize d =
    (b ← ensure_three (py_or (dict_get d "bullets") (VList []));
     Ok (<["bullets" := b]>
           (delete "_id" (<["id" := VStr (py_str (dict_get d "_id"))]> d)))).
Proof.
  unfold normalize, dict_get.
  by rewrite lookup_delete_ne, lookup_insert_ne by done.
Qed.

Lemma ensure_three_len (b b' : value) :
  ensure_three b = Ok b' → py_len b' = Ok 3.
Proof.
  unfold ensure_three.
  destruct b as [| | |s|l|]; try done;
    cbn [py_len py_slice_to py_add mbind res_bind].
  - destruct (Nat.ltb_spec 3 (length s)).
    + intros Hb. assert (b' = VStr (slice_to 3 s)) as -> by congruence.
      cbn [py_len]. rewrite length_slice_to. f_equal. lia.
    + destruct (Nat.ltb_spec (length s) 3); [done|].
      intros Hb. assert (b' = VStr s) as -> by congruence.
      cbn [py_len]. f_equal. lia.
  - destruct (Nat.ltb_spec 3 (length l)).
    + intros Hb. assert (b' = VList (take 3 l)) as -> by congruence.
      cbn [py_len]. rewrite length_take. f_equal. lia.
    + destruct (Nat.ltb_spec (length l) 3).
      * intros Hb.
        assert (b' = VList (l ++ replicate (3 - length l) (VStr []))) as ->
          by congruence.
        cbn [py_len]. rewrite length_app, length_replicate. f_equal. lia.
      * intros Hb. assert (b' = VList l) as -> by congruence.
        cbn [py_len]. f_equal. lia.
Qed.

Lemma ensure_three_list (l : list value) :
  ensure_three (VList l)
  = Ok (VList (take 3 l ++ replicate (3 - length l) (VStr []))).
Proof.
  unfold ensure_three. cbn [py_len mbind res_bind].
  destruct (Nat.ltb_spec 3 (length l)).
  - cbn [py_slice_to]. replace (3 - length l) with 0 by lia.
    cbn [replicate]. by rewrite app_nil_r.
  - destruct (Nat.ltb_spec (length l) 3).
    + cbn [py_add]. by rewrite take_ge by lia.
    + replace (3 - length l) with 0 by lia.
      cbn [replicate]. by rewrite take_ge, app_nil_r by lia.
Qed.

Lemma normalize_bullets_len (d item : dict) :
  normalize d = Ok item →
  ∃ b, item !! "bullets" = Some b ∧ py_len b = Ok 3.
Proof.
  rewrite normalize_unfold.
  destruct (ensure_three _) as [b|e] eqn:Hb; [|done].
  cbn [mbind res_bind]. intros [= <-]. exists b.
  split; [apply lookup_insert_eq | by eapply ensure_three_len].
Qed.

Lemma normalize_list (d : dict) (l : list value) :
  d !! "bullets" = Some (VList l) →
  ∃ item, normalize d = Ok item ∧
    item !! "bullets"
    = Some (VList (take 3 l ++ replicate (3 - length l) (VStr []))).
Proof.
  intros Hl. rewrite normalize_unfold. unfold dict_get. rewrite Hl.
  replace (py_or (default VNone (Some (VList l))) (VList [])) with (VList l)
    by by destruct l.
  rewrite ensure_three_list. cbn [mbind res_bind].
  eexists. split; [reflexivity | apply lookup_insert_eq].
Qed.

Lemma normalize_missing (d : dict) :
  d !! "bullets" = None →
  ∃ item, normalize d = Ok item ∧
    item !! "bullets" = Some (VList [VStr []; VStr []; VStr []]).
Proof.
  intros Hl. rewrite normalize_unfold. unfold dict_get. rewrite Hl.
  change (py_or (default VNone None) (VList [])) with (VList []).
  rewrite ensure_three_list. cbn [mbind res_bind].
  eexists. split; [reflexivity | apply lookup_insert_eq].
Qed.

(** [normalize] touches the keys "id", "_id" and "bullets" only. *)
Lemma normalize_other_keys (d item : dict) (k : string) :
  normalize d = Ok item →
  k ≠ "id" → k ≠ "_id" → k ≠ "bullets" →
  item !! k = d !! k.
Proof.
  rewrite normalize_unfold.
  destruct (ensure_three _) as [b|e]; [|done].
  cbn [mbind res_bind]. intros [= <-] ? ? ?.
  by rewrite lookup_insert_ne, lookup_delete_ne, lookup_insert_ne.
Qed.

Lemma feed_items (payload : PersonalizeRequest.t) (s : Store)
    (r : FeedResponse.t) :
  get_personalized_feed payload s = Reply r →
  ∃ docs,
    get_documents (py "newsitem") (feed_query payload) 50 s = Ok docs ∧
    Forall2 (λ d item, normalize d = Ok item) docs (FeedResponse.items r) ∧
    FeedResponse.count r = length (FeedResponse.items r).
Proof.
  unfold get_personalized_feed.
  destruct (get_documents _ _ _ _) as [docs|e]; [|done].
  cbn [mbind res_bind].
  destruct (res_map normalize docs) as [normalized|e] eqn:Hn; [|done].
  cbn [mbind res_bind]. intros [= <-]. exists docs.
  split; [done|]. split; [by apply res_map_Ok | done].
Qed.

Lemma digest_item_unfold (d : dict) (b : value) :
  py_slice_to 3 (py_or (dict_get d "bullets") (VList [])) = Ok b →
  ∃ item, digest_item d = Ok item ∧ item !! "bullets" = Some b
    ∧ item !! "title" = Some (dict_get d "title")
    ∧ item !! "fact_status"
      = Some (dict_get_or d "fact_status" (VStr (py "Unconfirmed")))
    ∧ item !! "risk_score" = Some (dict_get_or d "risk_score" (VInt 0)).
Proof.
  intros Hb. unfold digest_item. rewrite Hb. cbn [mbind res_bind].
  eexists. split; [reflexivity|]. unfold mkdict. cbn [foldl fst snd].
  by simplify_map_eq.
Qed.

Lemma digest_item_list (d : dict) (l : list value) :
  d !! "bullets" = Some (VList l) →
  ∃ item, digest_item d = Ok item ∧
    item !! "bullets" = Some (VList (take 3 l)).
Proof.
  intros Hl.
  destruct (digest_item_unfold d (VList (take 3 l))) as (item & ? & ? & _).
  - unfold dict_get. rewrite Hl. by destruct l.
  - by exists item.
Qed.

Lemma digest_item_bullets_le (d item : dict) :
  digest_item d = Ok item →
  ∃ b n, item !! "bullets" = Some b ∧ py_len b = Ok n ∧ n ≤ 3.
Proof.
  unfold digest_item.
  destruct (py_slice_to 3 _) as [b|e] eqn:Hb; [|done].
  destruct (digest_item_unfold d b Hb) as (item' & Hi & Hl & _).
  unfold digest_item in Hi. rewrite Hb in Hi. rewrite Hi.
  intros [= <-]. exists b.
  destruct (py_or _ _) as [| | |s|l|]; try done; injection Hb as <-.
  - exists (length (slice_to 3 s)). repeat split; [done|].
    rewrite length_slice_to. lia.
  - exists (length (take 3 l)). repeat split; [done|].
    rewrite length_take. lia.
Qed.

End Bullets.

Section Exposed.
Context `{PyRuntime} {Store : Type} `{DocumentStore Store}.

Lemma digest_of_Ok (language : lang) (docs : list dict) (r : DigestResponse.t) :
  digest_of language docs = Ok r ↔
  digest_summary language docs
    = Ok (DigestResponse.headlines r, DigestResponse.summary_60s r) ∧
  res_map digest_item (take 10 docs) = Ok (DigestResponse.items r) ∧
  DigestResponse.business_economy r
    = mkdict [("snapshot",
               VStr (py "FX, PSX, inflation, fuel updates at a glance."))] ∧
  DigestResponse.global_affecting_pk r
    = [py "Oil prices and regional markets";
       py "US/China moves impacting trade"].
Proof.
  unfold digest_of. split.
  - destruct (digest_summary language docs) as [[hs sm]|e]; [|done].
    cbn [mbind res_bind].
    destruct (res_map digest_item (take 10 docs)) as [items|e]; [|done].
    cbn [mbind res_bind]. intros Hr.
    assert (r = {| DigestResponse.headlines := hs;
                   DigestResponse.summary_60s := sm;
                   DigestResponse.items := items;
                   DigestResponse.business_economy :=
                     mkdict [("snapshot",
                       VStr (py "FX, PSX, inflation, fuel updates at a glance."))];
                   DigestResponse.global_affecting_pk :=
                     [py "Oil prices and regional markets";
                      py "US/China moves impacting trade"] |}) as ->
      by congruence.
    repeat split.
  - destruct r as [hs sm items be ga]. cbn [DigestResponse.headlines
      DigestResponse.summary_60s DigestResponse.items
      DigestResponse.business_economy DigestResponse.global_affecting_pk].
    intros (-> & -> & -> & ->). reflexivity.
Qed.

Lemma morning_digest_Reply (language : lang) (limit : nat)
    (clock : nat → pystr) (s : Store) (r : DigestResponse.t) :
  morning_digest language limit clock s = Reply r ↔
  digest_of language (digest_docs language limit clock s) = Ok r.
Proof.
  unfold morning_digest. destruct (digest_of _ _); simpl; split; congruence.
Qed.

(** Every item of a feed response has bullets of length exactly 3: a
    stored list is cut to its first 3 entries and padded with empty
    strings.  Every item of a digest response has at most 3 bullets: a
    stored list is cut to its first 3 entries, and is not padded. *)
Lemma bullets_feed_and_digest :
  (∀ payload (s : Store) r,
     get_personalized_feed payload s = Reply r →
     Forall (λ item : dict, ∃ b, item !! "bullets" = Some b ∧ py_len b = Ok 3)
            (FeedResponse.items r)) ∧
  (∀ (d : dict) l,
     d !! "bullets" = Some (VList l) →
     ∃ item, normalize d = Ok item ∧
       item !! "bullets"
       = Some (VList (take 3 l ++ replicate (3 - length l) (VStr [])))) ∧
  (∀ language limit clock (s : Store) r,
     morning_digest language limit clock s = Reply r →
     Forall (λ item : dict,
               ∃ b n, item !! "bullets" = Some b ∧ py_len b = Ok n ∧ n ≤ 3)
            (DigestResponse.items r)) ∧
  (∀ (d : dict) l,
     d !! "bullets" = Some (VList l) →
     ∃ item, digest_item d = Ok item ∧
       item !! "bullets" = Some (VList (take 3 l))).
Proof.
  split; [|split; [|split]].
  - intros payload s r Hr.
    destruct (feed_items payload s r Hr) as (docs & _ & Hn & _).
    induction Hn as [|d item docs items Hd _ IH]; constructor; [|done].
    by apply normalize_bullets_len with d.
  - apply normalize_list.
  - intros language limit clock s r Hr.
    apply morning_digest_Reply, digest_of_Ok in Hr as (_ & Hi & _).
    apply res_map_Ok in Hi.
    induction Hi as [|d item docs items Hd _ IH]; constructor; [|done].
    by apply digest_item_bullets_le with d.
  - apply digest_item_list.
Qed.

End Exposed.


(** C1 on a stored story with one bullet: the feed serves it with three
    bullets, two of them empty strings; the digest serves it with its one
    bullet, so a digest item can have fewer than 3 bullets. *)
Theorem digest_bullets_not_padded :
  (map (.!! "bullets") ∘ FeedResponse.items)
    <$> replied (get_personalized_feed (H := ascii_runtime)
                   plain_request (holding [short_doc]))
  = Some [Some (VList [VStr (py "Only point"); VStr []; VStr []])] ∧
  (map (.!! "bullets") ∘ DigestResponse.items)
    <$> replied (morning_digest en 10 clock0 (holding [short_doc]))
  = Some [Some (VList [VStr (py "Only point")])].
Proof. split; vm_compute; reflexivity. Qed.

Example feed_cuts_and_pads :
  (map (.!! "bullets") ∘ FeedResponse.items)
    <$> replied (get_personalized_feed (H := ascii_runtime)
                   plain_request (holding [long_doc; titled]))
  = Some [Some (strs ["One"; "Two"; "Three"]);
          Some (VList [VStr []; VStr []; VStr []])].
Proof. vm_compute. reflexivity. Qed.

(* ===================================================================== *)
(** ** Ingestion                                                          *)
(* ===================================================================== *)

Section Ingest.
Context `{PyRuntime} {Store : Type} `{DocumentStore Store}.

Lemma sample_articles_text (clock : nat → pystr) :
  Forall (λ art, text_or_missing art "title" ∧ text_or_missing art "source")
         (sample_articles clock).
Proof. unfold sample_articles. repeat constructor; vm_compute; exact I. Qed.

(** The fields of a composed document. *)
Lemma compose_lookup (art summary check : dict) (language : lang) (k : string) :
  compose art summary check language !! k =
    if decide (k = "urgency") then Some (VStr (py "important"))
    else if decide (k = "language") then Some (VStr (lang_code language))
    else match check !! k with
         | Some v => Some v
         | None => match summary !! k with
                   | Some v => Some v
                   | None => art !! k
                   end
         end.
Proof.
  unfold compose, dict_merge.
  destruct (decide (k = "urgency")) as [->|]; [apply lookup_insert_eq|].
  rewrite lookup_insert_ne by done.
  destruct (decide (k = "language")) as [->|]; [apply lookup_insert_eq|].
  rewrite lookup_insert_ne by done.
  rewrite !lookup_union. by destruct (check !! k), (summary !! k), (art !! k).
Qed.

(** The AI steps succeed on an article with a textual title and source;
    the composed document carries the urgency "important", the three
    bullets of the summary, and every field of the article that the
    summary, the verdict, "language" and "urgency" do not name. *)
Lemma compose_article_ok (art : dict) (language : lang) :
  text_or_missing art "title" → text_or_missing art "source" →
  ∃ doc b1 b2 b3,
    compose_article art language = Ok doc ∧
    doc !! "urgency" = Some (VStr (py "important")) ∧
    doc !! "language" = Some (VStr (lang_code language)) ∧
    doc !! "bullets" = Some (VList [b1; b2; b3]) ∧
    ∀ k, k ∉ ["bullets"; "impact"; "fact_status"; "risk_score";
              "language"; "urgency"] →
         doc !! k = art !! k.
Proof.
  intros Ht Hs.
  destruct (ai_clean_and_summarize_total art language Ht Hs)
    as (b1 & b2 & b3 & Hsum).
  destruct (ai_fact_check_total art Ht) as (status & score & Hchk).
  unfold compose_article. rewrite Hsum. cbn [mbind res_bind].
  rewrite Hchk. cbn [mbind res_bind].
  eexists _, _, _, _. split; [reflexivity|].
  split; [by rewrite compose_lookup|].
  split; [by rewrite compose_lookup|].
  split.
  - rewrite compose_lookup, decide_False, decide_False by done.
    unfold verdict. rewrite mkdict_lookup2 by done.
    by rewrite mkdict_lookup2_fst.
  - intros k Hk. rewrite compose_lookup.
    rewrite !not_elem_of_cons in Hk. destruct Hk as (?&?&?&?&?&?&_).
    rewrite decide_False, decide_False by done.
    unfold verdict. by rewrite !mkdict_lookup2.
Qed.

Lemma ingest_loop_persisted language before rest created s ids s' :
  persisted language before s ids s' →
  ingest_loop language (before ++ rest) created s
  = ingest_loop language rest (created ++ ids) s'.
Proof.
  intros Hp. revert created.
  induction Hp as [s|art doc _id arts s s' ids s'' Hdoc Hcreate _ IH];
    intros created.
  - by rewrite app_nil_r.
  - cbn [app ingest_loop]. rewrite Hdoc, Hcreate, IH.
    by rewrite <- app_assoc.
Qed.

Lemma persisted_length language arts s ids s' :
  persisted language arts s ids s' → length ids = length arts.
Proof. induction 1; simpl; congruence. Qed.

(** The document composed for a textual article, named through the
    function. *)
Lemma compose_article_value (art : dict) (language : lang) :
  text_or_missing art "title" → text_or_missing art "source" →
  compose_article art language
  = Ok match compose_article art language with
       | Ok doc => doc
       | Raise _ => ∅
       end.
Proof.
  intros Ht Hs.
  destruct (compose_article_ok art language Ht Hs) as (doc & ? & ? & ? & -> & _).
  reflexivity.
Qed.

(** C3.  Whatever the [sources] of the payload and for either language,
    [ingest_news] runs on the same batch of 3 stubbed articles: the
    response does not depend on [sources]; the three documents are
    composed without error and each carries the urgency "important";
    and when the three persist calls succeed, the response reports 3
    inserted documents and the 3 identifiers, in order. *)
Theorem ingest_news_fixed_batch (payload : IngestRequest.t)
    (clock : nat → pystr) (s : Store) :
  (∀ sources',
     ingest_news {| IngestRequest.sources := sources';
                    IngestRequest.language := IngestRequest.language payload |}
                 clock s
     = ingest_news payload clock s) ∧
  length (sample_articles clock) = 3 ∧
  ∃ d1 d2 d3,
    res_map (λ art, compose_article art (IngestRequest.language payload))
            (sample_articles clock) = Ok [d1; d2; d3] ∧
    Forall (λ d : dict, d !! "urgency" = Some (VStr (py "important")))
           [d1; d2; d3] ∧
    ∀ i1 i2 i3 s1 s2 s3,
      create_document (py "newsitem") d1 s = (Ok i1, s1) →
      create_document (py "newsitem") d2 s1 = (Ok i2, s2) →
      create_document (py "newsitem") d3 s2 = (Ok i3, s3) →
      ingest_news payload clock s
      = (Reply {| IngestResponse.inserted := 3;
                  IngestResponse.ids := [i1; i2; i3] |}, s3).
Proof.
  split; [done|]. split; [done|].
  pose proof (sample_articles_text clock) as Htext.
  unfold ingest_news.
  destruct (sample_articles clock) as [|a1 [|a2 [|a3 [|]]]] eqn:Hbatch;
    try discriminate Hbatch.
  apply Forall_cons in Htext as [[Ht1 Hs1] Htext].
  apply Forall_cons in Htext as [[Ht2 Hs2] Htext].
  apply Forall_cons in Htext as [[Ht3 Hs3] _].
  set (language := IngestRequest.language payload).
  destruct (compose_article_ok a1 language Ht1 Hs1)
    as (d1 & ? & ? & ? & Hd1 & Hu1 & _).
  destruct (compose_article_ok a2 language Ht2 Hs2)
    as (d2 & ? & ? & ? & Hd2 & Hu2 & _).
  destruct (compose_article_ok a3 language Ht3 Hs3)
    as (d3 & ? & ? & ? & Hd3 & Hu3 & _).
  exists d1, d2, d3. split; [|split].
  - cbn [res_map]. rewrite Hd1, Hd2, Hd3. reflexivity.
  - by repeat constructor.
  - intros i1 i2 i3 s1 s2 s3 Hc1 Hc2 Hc3.
    cbn [ingest_loop]. rewrite Hd1, Hc1. cbn [ingest_loop].
    rewrite Hd2, Hc2. cbn [ingest_loop]. rewrite Hd3, Hc3. reflexivity.
Qed.

(** C5.  If the articles before the k-th were composed and persisted,
    taking the store from [s] to [s1], and persisting the k-th document
    raises [e] leaving the store [s2], then [ingest_news] raises
    [HTTPException(500, "DB error: " + str(e))] and leaves the store
    exactly as the failed call left it: no later article is composed or
    persisted, and nothing is undone. *)
Theorem ingest_news_aborts (payload : IngestRequest.t) (clock : nat → pystr)
    (before after : list dict) (art doc : dict) (ids : list value)
    (s s1 s2 : Store) (e : pyexn) :
  sample_articles clock = before ++ art :: after →
  persisted (IngestRequest.language payload) before s ids s1 →
  compose_article art (IngestRequest.language payload) = Ok doc →
  create_document (py "newsitem") doc s1 = (Raise e, s2) →
  ingest_news payload clock s
  = (HTTPError 500 (py "DB error: " ++ exn_str e), s2).
Proof.
  intros Hbatch Hbefore Hdoc Hfail. unfold ingest_news. rewrite Hbatch.
  rewrite (ingest_loop_persisted _ _ _ _ _ _ _ Hbefore).
  cbn [ingest_loop]. by rewrite Hdoc, Hfail.
Qed.

End Ingest.


Lemma ingest_news_fixed_batch_witness :
  ∃ s3, ingest_news (H := ascii_runtime) en_request clock0 three_ids
        = (Reply {| IngestResponse.inserted := 3;
                    IngestResponse.ids :=
                      [VStr (py "a1"); VStr (py "a2"); VStr (py "a3")] |}, s3).
Proof.
  destruct (ingest_news_fixed_batch (H := ascii_runtime) en_request clock0
              three_ids) as (_ & _ & d1 & d2 & d3 & _ & _ & Hrun).
  eexists. eapply Hrun; reflexivity.
Defined.

Lemma ingest_news_aborts_witness :
  ingest_news (H := ascii_runtime) en_request clock0 second_fails
  = (HTTPError 500 (py "DB error: " ++ py "disk full"), after_failure)
  ∧ map (λ d : dict, d !! "title") (MemStore.saved after_failure)
    = [Some (VStr (py "Breaking: Govt announces new economic policy"))].
Proof.
  split; [|vm_compute; reflexivity].
  apply (ingest_news_aborts (H := ascii_runtime) en_request clock0
           [stub 0] [stub 2] (stub 1) (stub_doc 1) [VStr (py "a1")]
           second_fails after_first after_failure
           (DatabaseError (py "disk full"))).
  - reflexivity.
  - apply (persisted_cons en (stub 0) (stub_doc 0) (VStr (py "a1")) []
             second_fails after_first [] after_first).
    + apply compose_article_value; vm_compute; exact I.
    + reflexivity.
    + apply persisted_nil.
  - apply compose_article_value; vm_compute; exact I.
  - reflexivity.
Defined.

Example ingest_then_feed :
  let '(r, s) := ingest_news (H := ascii_runtime) en_request clock0 three_ids in
  replied r
  = Some {| IngestResponse.inserted := 3;
            IngestResponse.ids :=
              [VStr (py "a1"); VStr (py "a2"); VStr (py "a3")] |}
  ∧ (map (λ d : dict, (d !! "id", d !! "title")) ∘ FeedResponse.items)
      <$> replied (get_personalized_feed (H := ascii_runtime) lahore_request s)
    = Some [(Some (VStr (py "a2")),
             Some (VStr (py "PSL updates: Lahore Qalandars clinch close match")))].
Proof. vm_compute. split; reflexivity. Qed.

(* ===================================================================== *)
(** ** From ingestion to the feed                                         *)
(* ===================================================================== *)

Section RoundTrip.
Context `{PyRuntime}.

Lemma sample_articles_keys (clock : nat → pystr) :
  Forall (λ art : dict,
            Forall (λ k, is_Some (art !! k)) ["title"; "source"; "url"])
         (sample_articles clock).
Proof.
  unfold sample_articles.
  repeat constructor; vm_compute; eexists; reflexivity.
Qed.

(** C8.  For each stubbed article and each of the fields "title",
    "source" and "url": the article has the field; the document composed
    at ingestion has it unchanged; and once the store has given the
    document an "_id", the feed's normalisation succeeds on it and
    returns the field unchanged.  Normalisation leaves these three fields
    of any stored document as they are. *)
Theorem ingest_feed_roundtrip (clock : nat → pystr) (language : lang) :
  Forall (λ art : dict,
    ∃ doc, compose_article art language = Ok doc ∧
      Forall (λ k,
        is_Some (art !! k) ∧
        doc !! k = art !! k ∧
        ∀ oid, ∃ item,
          normalize (<["_id" := oid]> doc) = Ok item ∧
          item !! k = art !! k)
        ["title"; "source"; "url"])
    (sample_articles clock)
  ∧ ∀ (stored item : dict),
      normalize stored = Ok item →
      Forall (λ k, item !! k = stored !! k) ["title"; "source"; "url"].
Proof.
  split.
  - pose proof (sample_articles_text clock) as Htext.
    pose proof (sample_articles_keys clock) as Hkeys.
    induction Htext as [|art arts [Ht Hs] _ IH]; [constructor|].
    apply Forall_cons in Hkeys as [Hart Hkeys].
    constructor; [|by apply IH].
    destruct (compose_article_ok art language Ht Hs)
      as (doc & b1 & b2 & b3 & Hdoc & _ & _ & Hbullets & Hkeep).
    exists doc. split; [done|].
    assert (Hfield : ∀ k : string,
              k ≠ "bullets" → k ≠ "impact" → k ≠ "fact_status" →
              k ≠ "risk_score" → k ≠ "language" → k ≠ "urgency" →
              k ≠ "id" → k ≠ "_id" →
              is_Some (art !! k) →
              is_Some (art !! k) ∧ doc !! k = art !! k ∧
              ∀ oid, ∃ item,
                normalize (<["_id" := oid]> doc) = Ok item ∧
                item !! k = art !! k).
    { intros k ? ? ? ? ? ? ? ? Hsome.
      assert (doc !! k = art !! k) as Hdk.
      { apply Hkeep. rewrite !not_elem_of_cons. repeat split; try done.
        apply not_elem_of_nil. }
      split; [done|]. split; [done|]. intros oid.
      destruct (normalize_list (<["_id" := oid]> doc) [b1; b2; b3])
        as (item & Hitem & _).
      { by rewrite lookup_insert_ne. }
      exists item. split; [done|].
      rewrite (normalize_other_keys _ _ k Hitem) by done.
      by rewrite lookup_insert_ne. }
    apply Forall_cons in Hart as [Htitle Hart].
    apply Forall_cons in Hart as [Hsource Hart].
    apply Forall_cons in Hart as [Hurl _].
    repeat constructor; by apply Hfield.
  - intros stored item Hitem.
    repeat constructor; by apply (normalize_other_keys stored item).
Qed.

End RoundTrip.

(** The three stories ingested into the in-memory store come back from
    the feed with the title, source and url of the stubbed articles. *)
Example ingest_feed_roundtrip_run :
  (map (λ d : dict, (d !! "title", d !! "source", d !! "url"))
     ∘ FeedResponse.items)
    <$> replied (get_personalized_feed (H := ascii_runtime) plain_request
                   (ingest_news (H := ascii_runtime) en_request clock0
                      three_ids).2)
  = Some (map (λ d : dict, (d !! "title", d !! "source", d !! "url"))
              (sample_articles clock0)).
Proof. vm_compute. reflexivity. Qed.

(* ===================================================================== *)
(** ** The digest                                                         *)
(* ===================================================================== *)

Lemma join_items_text (i : nat) (ss : list pystr) :
  join_items i (map VStr ss) = Ok ss.
Proof.
  revert i. induction ss as [|s ss IH]; intros i; [done|].
  cbn [map join_items]. by rewrite IH.
Qed.

Lemma res_map_slice_text (n : nat) (ts : list pystr) :
  res_map (py_slice_to n) (map VStr ts)
  = Ok (map VStr (map (slice_to n) ts)).
Proof.
  induction ts as [|t ts IH]; [done|].
  cbn [map res_map py_slice_to mbind res_bind]. by rewrite IH.
Qed.

(** Slicing then joining succeeds on strings only. *)
Lemma slice_join_text (n i : nat) (vs cut : list value) (ss : list pystr) :
  res_map (py_slice_to n) vs = Ok cut →
  join_items i cut = Ok ss →
  ∃ ts, vs = map VStr ts.
Proof.
  revert i cut ss. induction vs as [|v vs IH]; intros i cut ss.
  - intros _ _. by exists [].
  - cbn [res_map].
    destruct (py_slice_to n v) as [c|e] eqn:Hv; [|done].
    cbn [mbind res_bind].
    destruct (res_map (py_slice_to n) vs) as [cs|e] eqn:Hvs; [|done].
    cbn [mbind res_bind]. intros Hcut.
    assert (cut = c :: cs) as -> by congruence.
    destruct v as [| | |t|l|]; try done.
    + assert (c = VStr (slice_to n t)) as -> by (cbn in Hv; congruence).
      cbn [join_items].
      destruct (join_items (S i) cs) as [ss'|e] eqn:Hcs; [|done].
      intros _. destruct (IH (S i) cs ss' eq_refl Hcs) as [ts ->].
      by exists (t :: ts).
    + assert (c = VList (take n l)) as -> by (cbn in Hv; congruence).
      done.
Qed.

(** A value that cannot be sliced stops the slicing loop. *)
Lemma res_map_slice_Raise (n : nat) (vs : list value) (v : value) :
  v ∈ vs → py_slice_to n v = Raise (TypeError (NotSubscriptable v)) →
  ∃ v', res_map (py_slice_to n) vs = Raise (TypeError (NotSubscriptable v')).
Proof.
  intros Hin Hv. induction vs as [|w vs IH]; [by apply elem_of_nil in Hin|].
  cbn [res_map]. apply elem_of_cons in Hin as [<-|Hin].
  - rewrite Hv. by exists v.
  - destruct (IH Hin) as [v' Hv'].
    destruct w as [| | |t|l|]; cbn [py_slice_to mbind res_bind];
      try (by eexists); rewrite Hv'; by exists v'.
Qed.

Section Digest.
Context {Store : Type} `{DocumentStore Store}.

Lemma digest_summary_text (language : lang) (docs : list dict)
    (ts : list pystr) :
  take 10 (map (λ d, dict_get d "title") docs) = map VStr ts →
  digest_summary language docs
  = Ok (map VStr ts,
        join (py " ") (map (slice_to 60) ts) ++ trailer language).
Proof.
  intros Hts. unfold digest_summary. rewrite Hts, res_map_slice_text.
  cbn [mbind res_bind]. unfold py_join. rewrite join_items_text.
  cbn [mbind res_bind]. rewrite lang_code_en.
  destruct language; cbn [trailer]; reflexivity.
Qed.

Lemma digest_summary_Ok (language : lang) (docs : list dict) :
  (∃ r, digest_summary language docs = Ok r) ↔
  Forall (λ d : dict, ∃ t, d !! "title" = Some (VStr t)) (take 10 docs).
Proof.
  split.
  - intros [r Hr]. unfold digest_summary in Hr.
    destruct (res_map _ _) as [cut|e] eqn:Hcut; [|done].
    cbn [mbind res_bind] in Hr. unfold py_join in Hr.
    destruct (join_items 0 cut) as [ss|e] eqn:Hss; [|done].
    destruct (slice_join_text _ _ _ _ _ Hcut Hss) as [ts Hts].
    rewrite firstn_map in Hts. clear -Hts.
    revert ts Hts. induction (take 10 docs) as [|d ds IH]; intros ts Hts;
      [constructor|].
    destruct ts as [|t ts]; [done|]. cbn [map] in Hts.
    injection Hts as Hd Hds. constructor; [|by eapply IH].
    exists t. unfold dict_get in Hd. destruct (d !! "title") as [v|]; cbn in Hd; [by subst | done].
  - intros Hall.
    assert (∃ ts, take 10 (map (λ d, dict_get d "title") docs) = map VStr ts)
      as [ts Hts].
    { rewrite firstn_map.
      induction Hall as [|d ds [t Ht] _ [ts IH]]; [by exists []|].
      exists (t :: ts). cbn [map]. rewrite IH. unfold dict_get.
      by rewrite Ht. }
    rewrite (digest_summary_text _ _ _ Hts). by eexists.
Qed.

Lemma digest_docs_query (language : lang) (limit : nat)
    (clock : nat → pystr) (s : Store) (docs : list dict) :
  get_documents (py "newsitem") (digest_query language) limit s = Ok docs →
  docs ≠ [] →
  digest_docs language limit clock s = docs.
Proof.
  unfold digest_docs. intros -> Hne. by destruct docs.
Qed.

Lemma digest_docs_fallback (language : lang) (limit : nat)
    (clock : nat → pystr) (s : Store) :
  get_documents (py "newsitem") (digest_query language) limit s = Ok [] ∨
  (∃ e, get_documents (py "newsitem") (digest_query language) limit s
        = Raise e) →
  digest_docs language limit clock s = fallback_docs clock.
Proof.
  unfold digest_docs. by intros [->|[e ->]].
Qed.

Lemma digest_items_total (docs : list dict) :
  Forall (λ d, list_or_missing d "bullets") docs →
  ∃ items, res_map digest_item docs = Ok items.
Proof.
  intros Hall. apply res_map_total.
  induction Hall as [|d ds Hd _ IH]; constructor; [|done].
  unfold list_or_missing in Hd.
  destruct (digest_item_unfold d
              (VList (take 3 match d !! "bullets" with
                             | Some (VList l) => l
                             | _ => []
                             end))) as (item & Hitem & _).
  - unfold dict_get.
    destruct (d !! "bullets") as [[| | | |l|]|]; try done. by destruct l.
  - by exists item.
Qed.

End Digest.

Lemma digest_item_status (d item : dict) :
  digest_item d = Ok item →
  item !! "fact_status"
  = Some (dict_get_or d "fact_status" (VStr (py "Unconfirmed"))) ∧
  item !! "risk_score" = Some (dict_get_or d "risk_score" (VInt 0)).
Proof.
  intros Hi. pose proof Hi as Hi'. unfold digest_item in Hi'.
  destruct (py_slice_to 3 _) as [b|e] eqn:Hb; [|done].
  destruct (digest_item_unfold d b Hb) as (item' & Hitem & _ & _ & Hfs & Hrs).
  assert (item' = item) as -> by congruence. done.
Qed.

Section DigestClaims.
Context {Store : Type} `{DocumentStore Store}.

(** C4.  When the store query raises or returns no document, the digest
    is built from the 5 simulated items: the response has 5 items, one per
    simulated document, each with fact status "Unconfirmed" and risk score
    20, and the summary contains the Urdu trailing sentence exactly when
    the language is "ur". *)
Theorem digest_fallback (language : lang) (limit : nat)
    (clock : nat → pystr) (s : Store) :
  get_documents (py "newsitem") (digest_query language) limit s = Ok [] ∨
  (∃ e, get_documents (py "newsitem") (digest_query language) limit s
        = Raise e) →
  ∃ r, morning_digest language limit clock s = Reply r ∧
    digest_docs language limit clock s = fallback_docs clock ∧
    length (fallback_docs clock) = 5 ∧
    Forall2 (λ d item, digest_item d = Ok item)
            (fallback_docs clock) (DigestResponse.items r) ∧
    length (DigestResponse.items r) = 5 ∧
    Forall (λ item : dict,
              item !! "fact_status" = Some (VStr (py "Unconfirmed")) ∧
              item !! "risk_score" = Some (VInt 20))
           (DigestResponse.items r) ∧
    (substring urdu_trailer (DigestResponse.summary_60s r) ↔ language = ur).
Proof.
  intros Hq. pose proof (digest_docs_fallback language limit clock s Hq) as Hd.
  unfold morning_digest. rewrite Hd.
  assert (Hsum : digest_summary language (fallback_docs clock)
                 = Ok (map VStr fallback_titles,
                       join (py " ") (map (slice_to 60) fallback_titles)
                       ++ trailer language))
    by (by apply digest_summary_text).
  destruct (digest_items_total (take 10 (fallback_docs clock)))
    as [items Hitems].
  { unfold fallback_docs, fallback_titles. cbn [imap take].
    repeat constructor; vm_compute; exact I. }
  eexists. split.
  { unfold digest_of. rewrite Hsum. cbn [mbind res_bind]. rewrite Hitems.
    reflexivity. }
  cbn [DigestResponse.items DigestResponse.summary_60s].
  split; [done|]. split; [done|].
  apply res_map_Ok in Hitems. change (take 10 (fallback_docs clock))
    with (fallback_docs clock) in Hitems.
  split; [done|].
  split; [by rewrite <- (Forall2_length _ _ _ Hitems)|].
  split.
  - assert (Hsrc : Forall (λ d : dict,
               dict_get_or d "fact_status" (VStr (py "Unconfirmed"))
               = VStr (py "Unconfirmed") ∧
               dict_get_or d "risk_score" (VInt 0) = VInt 20)
             (fallback_docs clock)).
    { unfold fallback_docs, fallback_titles. cbn [imap].
      repeat (apply Forall_cons_2; [split; vm_compute; reflexivity|]).
      apply Forall_nil_2. }
    clear Hsum Hd Hq.
    induction Hitems as [|d item ds items' Hi _ IH]; [constructor|].
    apply Forall_cons in Hsrc as [[Hfs Hrs] Hsrc].
    constructor; [|by apply IH].
    destruct (digest_item_status d item Hi) as [-> ->].
    by rewrite Hfs, Hrs.
  - rewrite <- contains_spec. destruct language; vm_compute; split; done.
Qed.

End DigestClaims.

Lemma digest_fallback_witness :
  ∃ r, morning_digest ur 10 clock0 out_of_reach = Reply r ∧
    length (DigestResponse.items r) = 5 ∧
    substring urdu_trailer (DigestResponse.summary_60s r).
Proof.
  destruct (digest_fallback ur 10 clock0 out_of_reach)
    as (r & Hr & _ & _ & _ & Hlen & _ & Htrailer).
  - right. eexists. vm_compute. reflexivity.
  - exists r. split; [exact Hr|]. split; [exact Hlen|].
    apply Htrailer. reflexivity.
Defined.

Section DigestQuery.
Context {Store : Type} `{DocumentStore Store}.

(** C6, as the code has it.  When the query returns a non-empty list of
    documents whose first 10 titles are strings and whose first 10
    "bullets" are lists (or missing), the digest returns: as headlines the
    first 10 titles in query order; one item for each of the first 10
    documents, so at most 10; and as summary the headlines, each cut to
    its first 60 characters, joined by single spaces, followed by the Urdu
    trailing sentence exactly when the language is "ur". *)
Theorem digest_of_query (language : lang) (limit : nat)
    (clock : nat → pystr) (s : Store) (docs : list dict)
    (ts : list pystr) :
  get_documents (py "newsitem") (digest_query language) limit s = Ok docs →
  docs ≠ [] →
  take 10 (map (λ d, dict_get d "title") docs) = map VStr ts →
  Forall (λ d, list_or_missing d "bullets") (take 10 docs) →
  ∃ r, morning_digest language limit clock s = Reply r ∧
    DigestResponse.headlines r
    = take 10 (map (λ d, dict_get d "title") docs) ∧
    DigestResponse.summary_60s r
    = join (py " ") (map (slice_to 60) ts)
      ++ match language with en => [] | ur => urdu_trailer end ∧
    Forall2 (λ d item, digest_item d = Ok item)
            (take 10 docs) (DigestResponse.items r) ∧
    length (DigestResponse.items r) = min 10 (length docs).
Proof.
  intros Hq Hne Hts Hbullets.
  unfold morning_digest.
  rewrite (digest_docs_query language limit clock s docs Hq Hne).
  destruct (digest_items_total (take 10 docs) Hbullets) as [items Hitems].
  eexists. split.
  { unfold digest_of. rewrite (digest_summary_text language docs ts Hts).
    cbn [mbind res_bind]. rewrite Hitems. reflexivity. }
  cbn [DigestResponse.headlines DigestResponse.summary_60s
       DigestResponse.items].
  split; [done|]. split; [by destruct language|].
  split; [by apply res_map_Ok|].
  by rewrite (res_map_length _ _ _ Hitems), length_take.
Qed.

(** C10, as the code has it.  The headline and summary computation
    succeeds exactly when each of the first 10 documents has a string
    title; in particular it succeeds when every document has one.  A
    document among the first 10 whose title is missing or [None] makes the
    slicing raise [TypeError], and the digest request then ends with that
    uncaught exception instead of falling back.  Documents after the
    tenth are not read. *)
Theorem digest_summary_titles :
  (∀ language (docs : list dict),
     Forall (λ d : dict, ∃ t, d !! "title" = Some (VStr t)) docs →
     ∃ r, digest_summary language docs = Ok r) ∧
  (∀ language (docs : list dict),
     (∃ r, digest_summary language docs = Ok r) ↔
     Forall (λ d : dict, ∃ t, d !! "title" = Some (VStr t)) (take 10 docs)) ∧
  (∀ language limit clock (s : Store) (docs : list dict) i (d : dict),
     get_documents (py "newsitem") (digest_query language) limit s = Ok docs →
     i < 10 → docs !! i = Some d →
     d !! "title" = None ∨ d !! "title" = Some VNone →
     ∃ v, digest_summary language docs
          = Raise (TypeError (NotSubscriptable v)) ∧
          morning_digest language limit clock s
          = Unhandled (TypeError (NotSubscriptable v))).
Proof.
  split; [|split].
  - intros language docs Hall. apply digest_summary_Ok.
    by apply Forall_take.
  - apply digest_summary_Ok.
  - intros language limit clock s docs i d Hq Hi Hd Hmissing.
    assert (Hne : docs ≠ []) by (by destruct docs).
    assert (Hin : VNone ∈ take 10 (map (λ d, dict_get d "title") docs)).
    { apply list_elem_of_lookup. exists i.
      rewrite lookup_take_lt by done. rewrite lookup_map, Hd.
      cbn. unfold dict_get. by destruct Hmissing as [->| ->]. }
    destruct (res_map_slice_Raise 60 _ VNone Hin eq_refl) as [v Hv].
    exists v.
    assert (Hsum : digest_summary language docs
                   = Raise (TypeError (NotSubscriptable v))).
    { unfold digest_summary. by rewrite Hv. }
    split; [done|]. unfold morning_digest.
    rewrite (digest_docs_query language limit clock s docs Hq Hne).
    unfold digest_of. by rewrite Hsum.
Qed.

End DigestQuery.


(** C6 fails on an empty query result: the headlines are then the five
    simulated titles, not the (empty) list of queried titles.  It also
    fails on a result whose document has no title: the request then ends
    with an uncaught [TypeError] and returns no headline at all. *)
Lemma digest_of_query_fails :
  get_documents (py "newsitem") (digest_query en) 10 MemStore.empty = Ok [] ∧
  DigestResponse.headlines
    <$> replied (morning_digest en 10 clock0 MemStore.empty)
  = Some (map VStr fallback_titles) ∧
  map VStr fallback_titles
  ≠ take 10 (map (λ d : dict, dict_get d "title") []) ∧
  get_documents (py "newsitem") (digest_query en) 10 (holding [untitled])
  = Ok [untitled] ∧
  morning_digest en 10 clock0 (holding [untitled])
  = Unhandled (TypeError (NotSubscriptable VNone)).
Proof.
  split; [reflexivity|]. split; [vm_compute; reflexivity|].
  split; [discriminate|]. split; [|vm_compute; reflexivity].
  apply (find_all (py "newsitem") (digest_query en) 10 (holding [untitled]));
    [reflexivity | simpl; lia | vm_compute; reflexivity].
Qed.

Lemma digest_of_query_witness :
  ∃ r, morning_digest en 20 clock0 (holding [short_doc; long_doc]) = Reply r ∧
    DigestResponse.headlines r
    = take 10 (map (λ d : dict, dict_get d "title") [short_doc; long_doc]) ∧
    DigestResponse.summary_60s r
    = join (py " ")
        (map (slice_to 60) [py "Budget session today"; long_title])
      ++ [] ∧
    Forall2 (λ d item, digest_item d = Ok item)
            (take 10 [short_doc; long_doc]) (DigestResponse.items r) ∧
    length (DigestResponse.items r) = min 10 (length [short_doc; long_doc]).
Proof.
  apply (digest_of_query en 20 clock0 (holding [short_doc; long_doc])
           [short_doc; long_doc] [py "Budget session today"; long_title]).
  - apply (find_all (py "newsitem") (digest_query en) 20
             (holding [short_doc; long_doc]));
      [reflexivity | simpl; lia | vm_compute; reflexivity].
  - discriminate.
  - vm_compute; reflexivity.
  - repeat (apply Forall_cons_2; [vm_compute; exact I|]). apply Forall_nil_2.
Defined.

Example digest_of_two_stories :
  (λ r, (DigestResponse.summary_60s r,
         map (.!! "bullets") (DigestResponse.items r)))
    <$> replied (morning_digest en 20 clock0 (holding [short_doc; long_doc]))
  = Some (py "Budget session today State Bank keeps the policy rate unchanged as inflation ease",
          [Some (strs ["Only point"]); Some (strs ["One"; "Two"; "Three"])]).
Proof. vm_compute. reflexivity. Qed.

(** C10 fails as a necessary condition: with 11 documents returned, the
    eleventh without a title, the headline and summary computation and
    the whole request succeed. *)
Lemma digest_eleventh_untitled :
  get_documents (py "newsitem") (digest_query en) 20 (holding eleven_docs)
  = Ok eleven_docs ∧
  eleven_docs !! 10 = Some untitled ∧
  untitled !! "title" = None ∧
  ¬ Forall (λ d : dict, ∃ t, d !! "title" = Some (VStr t)) eleven_docs ∧
  fst <$> returned (digest_summary en eleven_docs)
  = Some (replicate 10 (VStr (py "Story"))) ∧
  DigestResponse.headlines
    <$> replied (morning_digest en 20 clock0 (holding eleven_docs))
  = Some (replicate 10 (VStr (py "Story"))).
Proof.
  split.
  { apply (find_all (py "newsitem") (digest_query en) 20 (holding eleven_docs));
      [reflexivity | simpl; lia | vm_compute; reflexivity]. }
  split; [reflexivity|]. split; [vm_compute; reflexivity|].
  split; [|split; vm_compute; reflexivity].
  intros Hall. unfold eleven_docs in Hall.
  apply Forall_app in Hall as [_ Hall].
  apply Forall_cons in Hall as [[t Ht] _]. vm_compute in Ht. discriminate.
Qed.

Lemma digest_summary_titles_witness :
  ∃ v, digest_summary en [untitled]
       = Raise (TypeError (NotSubscriptable v)) ∧
       morning_digest en 10 clock0 (holding [untitled])
       = Unhandled (TypeError (NotSubscriptable v)).
Proof.
  destruct (digest_summary_titles (Store := MemStore.t)) as (_ & _ & Hfail).
  apply (Hfail en 10 clock0 (holding [untitled]) [untitled] 0 untitled).
  - apply (find_all (py "newsitem") (digest_query en) 10 (holding [untitled]));
      [reflexivity | simpl; lia | vm_compute; reflexivity].
  - lia.
  - reflexivity.
  - left. vm_compute; reflexivity.
Defined.

Example digest_fallback_ur :
  DigestResponse.summary_60s
    <$> replied (morning_digest ur 20 clock0 (holding [short_doc; long_doc]))
  = Some (py "Fiscal updates and market outlook Security and regional developments PSX morning momentum Monsoon/weather advisory Tech/startup funding news آج کے اہم نکات کا خلاصہ۔").
Proof. vm_compute. reflexivity. Qed.

(* ===================================================================== *)
(** ** The audio placeholder                                              *)
(* ===================================================================== *)

(** C9.  [text_to_audio] always returns; the "audio_url" of its response
    is the same constant for any two requests; and the whole response is
    the same for two requests that differ in their text only. *)
Theorem text_to_audio_constant (p1 p2 : AudioRequest.t) :
  (∃ r1 r2,
     text_to_audio p1 = Reply r1 ∧ text_to_audio p2 = Reply r2 ∧
     AudioResponse.audio_url r1 = audio_constant ∧
     AudioResponse.audio_url r2 = audio_constant) ∧
  (∀ t1 t2 l,
     text_to_audio {| AudioRequest.text := t1; AudioRequest.language := l |}
     = text_to_audio {| AudioRequest.text := t2; AudioRequest.language := l |}).
Proof.
  split.
  - eexists _, _. split; [reflexivity|]. split; [reflexivity|].
    cbn [AudioResponse.audio_url]. split; vm_compute; reflexivity.
  - reflexivity.
Qed.

Example text_to_audio_newlines :
  replace_char 10 (py " ") [97; 10; 98; 10]%N = [97; 32; 98; 32]%N.
Proof. reflexivity. Qed.

(* ===================================================================== *)
(** ** More on the summarizer                                             *)
(* ===================================================================== *)

Lemma py_ur_not_en : py "en" ≠ py "ur".
Proof. vm_compute. discriminate. Qed.

Lemma bullets_of_summary (l : list value) (impact : value) :
  bullets_of (Ok (mkdict [("bullets", VList l); ("impact", impact)]))
  = Some l.
Proof.
  unfold bullets_of. cbn [returned]. by rewrite mkdict_lookup2_fst.
Qed.

Section SummarizerMore.
Context `{PyRuntime}.

(** The English summary of an article whose title is a string. *)
Lemma summarize_en (article : dict) (language t : pystr) :
  language ≠ py "ur" →
  py_or (dict_get article "title") (VStr (py "Untitled")) = VStr t →
  ai_clean_and_summarize article language =
    Ok (mkdict [
      ("bullets",
       VList [VStr (py "Key point: " ++ slice_to 70 t);
              VStr (py "Source: "
                    ++ py_str (dict_get_or article "source"
                                 (VStr (py "unknown"))));
              VStr (py "Time: "
                    ++ py_str (dict_get_or article "published_at"
                                 (VStr [])))]);
      ("impact", VStr impact_en)]).
Proof.
  intros Hlang Ht. unfold ai_clean_and_summarize.
  rewrite Ht, (bool_decide_eq_false_2 _ Hlang).
  cbn [py_slice_to mbind res_bind take py_str]. reflexivity.
Qed.

(** The Urdu summary of an article whose title is a string and whose
    source is a string or falsy. *)
Lemma summarize_ur (article : dict) (t s2 : pystr) :
  py_or (dict_get article "title") (VStr (py "Untitled")) = VStr t →
  py_or (dict_get article "source") (VStr (py "نامعلوم")) = VStr s2 →
  ai_clean_and_summarize article (py "ur") =
    Ok (mkdict [
      ("bullets",
       VList [VStr (py "اہم نقطہ: " ++ slice_to 70 t);
              VStr (py "سورس: " ++ s2);
              VStr (py "وقت: " ++ py_str (dict_get article "published_at"))]);
      ("impact", VStr impact_ur)]).
Proof.
  intros Ht Hs. unfold ai_clean_and_summarize.
  rewrite Ht, Hs, (bool_decide_eq_true_2 _ eq_refl), py_or_str_self.
  cbn [py_slice_to py_add mbind res_bind take]. reflexivity.
Qed.

Lemma summarizable_returns (article : dict) (language : pystr) :
  summarizable article language = true →
  ∃ d, ai_clean_and_summarize article language = Ok d.
Proof.
  unfold summarizable.
  destruct (py_or (dict_get article "title") (VStr (py "Untitled")))
    as [| | |t|l|] eqn:Ht; try discriminate.
  - destruct (decide (language = py "ur")) as [->|Hlang].
    + rewrite (bool_decide_eq_true_2 _ eq_refl).
      destruct (py_or (dict_get article "source") (VStr (py "نامعلوم")))
        as [| | |s2|l|] eqn:Hs; try discriminate.
      intros _. eexists. by apply summarize_ur.
    + intros _. eexists. by apply summarize_en.
  - destruct (decide (language = py "ur")) as [->|Hlang].
    + rewrite (bool_decide_eq_true_2 _ eq_refl). discriminate.
    + intros _. eexists. unfold ai_clean_and_summarize.
      rewrite Ht, (bool_decide_eq_false_2 _ Hlang).
      cbn [py_slice_to mbind res_bind]. reflexivity.
Qed.

Lemma returns_summarizable (article : dict) (language : pystr) (d : dict) :
  ai_clean_and_summarize article language = Ok d →
  summarizable article language = true.
Proof.
  unfold summarizable, ai_clean_and_summarize.
  destruct (py_or (dict_get article "title") (VStr (py "Untitled")))
    as [| | |t|l|] eqn:Ht; try discriminate.
  - destruct (decide (language = py "ur")) as [->|Hlang].
    + rewrite (bool_decide_eq_true_2 _ eq_refl).
      destruct (py_or (dict_get article "source") (VStr (py "نامعلوم")))
        as [| | |s2|l|] eqn:Hs; try discriminate. reflexivity.
    + rewrite (bool_decide_eq_false_2 _ Hlang). reflexivity.
  - destruct (decide (language = py "ur")) as [->|Hlang].
    + rewrite (bool_decide_eq_true_2 _ eq_refl). discriminate.
    + rewrite (bool_decide_eq_false_2 _ Hlang). reflexivity.
Qed.

(** X1.  The summarizer returns exactly on the articles [summarizable]
    accepts: in English, when the title read is a string or a list; in
    Urdu, when it is a string and the source is a string or falsy.  On
    every other article it raises. *)
Theorem ai_clean_and_summarize_returns (article : dict) (language : pystr) :
  (∃ d, ai_clean_and_summarize article language = Ok d)
  ↔ summarizable article language = true.
Proof.
  split.
  - intros [d Hd]. by apply returns_summarizable with d.
  - apply summarizable_returns.
Qed.

(** X2.  Any language other than "ur" gives the English summary. *)
Theorem ai_clean_and_summarize_default_language (article : dict)
    (language : pystr) :
  language ≠ py "ur" →
  ai_clean_and_summarize article language
  = ai_clean_and_summarize article (py "en").
Proof.
  intros Hlang. unfold ai_clean_and_summarize.
  rewrite (bool_decide_eq_false_2 _ Hlang),
          (bool_decide_eq_false_2 _ py_ur_not_en).
  reflexivity.
Qed.

(** X3.  The summary depends on the article through its title, source
    and publication time only: two articles that agree on these three
    keys have the same summary, whatever else they hold (a description or
    a content, for instance). *)
Theorem ai_clean_and_summarize_reads (a a' : dict) (language : pystr) :
  a !! "title" = a' !! "title" →
  a !! "source" = a' !! "source" →
  a !! "published_at" = a' !! "published_at" →
  ai_clean_and_summarize a language = ai_clean_and_summarize a' language.
Proof.
  intros Ht Hs Hp. unfold ai_clean_and_summarize, dict_get, dict_get_or.
  rewrite Ht, Hs, Hp. reflexivity.
Qed.

(** On an article with a textual title and source the bullets are three
    strings. *)
Lemma summarize_text_bullets (article : dict) (l : lang) :
  text_or_missing article "title" →
  text_or_missing article "source" →
  ∃ b1 b2 b3,
    ai_clean_and_summarize article (lang_code l) =
      Ok (mkdict [("bullets", VList [VStr b1; VStr b2; VStr b3]);
                  ("impact", VStr (impact_of l))]).
Proof.
  intros Htitle Hsource.
  destruct (text_or_default article "title" (py "Untitled") Htitle) as [t Ht].
  destruct l.
  - eexists _, _, _. by apply (summarize_en article (py "en") t py_ur_not_en).
  - destruct (text_or_default article "source" (py "نامعلوم") Hsource)
      as [s2 Hs].
    eexists _, _, _. by apply (summarize_ur article t s2).
Qed.

(** X4.  Whenever the summarizer returns, for any article and language,
    the summary holds exactly two keys: "bullets", a list of exactly three
    strings, and "impact", the Urdu sentence when the language is "ur" and
    the English one otherwise. *)
Theorem ai_clean_and_summarize_shape (article : dict) (language : pystr)
    (d : dict) :
  ai_clean_and_summarize article language = Ok d →
  ∃ b1 b2 b3,
    d = mkdict [("bullets", VList [VStr b1; VStr b2; VStr b3]);
                ("impact",
                 VStr (if bool_decide (language = py "ur") then impact_ur
                       else impact_en))].
Proof.
  intros Hd.
  pose proof (returns_summarizable article language d Hd) as Hok.
  unfold summarizable in Hok.
  destruct (py_or (dict_get article "title") (VStr (py "Untitled")))
    as [| | |t|l|] eqn:Ht; try discriminate Hok.
  - destruct (decide (language = py "ur")) as [->|Hlang].
    + rewrite (bool_decide_eq_true_2 _ eq_refl) in Hok |- *.
      destruct (py_or (dict_get article "source") (VStr (py "نامعلوم")))
        as [| | |s2|l|] eqn:Hs; try discriminate Hok.
      rewrite (summarize_ur article t s2 Ht Hs) in Hd.
      cbv iota.
      exists (py "اہم نقطہ: " ++ slice_to 70 t), (py "سورس: " ++ s2),
             (py "وقت: " ++ py_str (dict_get article "published_at")).
      congruence.
    + rewrite (bool_decide_eq_false_2 _ Hlang).
      rewrite (summarize_en article language t Hlang Ht) in Hd.
      cbv iota.
      exists (py "Key point: " ++ slice_to 70 t),
             (py "Source: " ++ py_str (dict_get_or article "source"
                                         (VStr (py "unknown")))),
             (py "Time: " ++ py_str (dict_get_or article "published_at"
                                       (VStr []))).
      congruence.
  - destruct (decide (language = py "ur")) as [->|Hlang].
    + rewrite (bool_decide_eq_true_2 _ eq_refl) in Hok. discriminate Hok.
    + rewrite (bool_decide_eq_false_2 _ Hlang).
      unfold ai_clean_and_summarize in Hd.
      rewrite Ht, (bool_decide_eq_false_2 _ Hlang) in Hd.
      cbn [py_slice_to mbind res_bind take] in Hd.
      cbv iota.
      exists (py "Key point: " ++ py_str (VList (take 70 l))),
             (py "Source: " ++ py_str (dict_get_or article "source"
                                         (VStr (py "unknown")))),
             (py "Time: " ++ py_str (dict_get_or article "published_at"
                                       (VStr []))).
      congruence.
Qed.

(** X5.  For an article whose title is a string, [None] or missing, the
    first bullet of a summary is a string of at most 81 characters,
    however long the title is. *)
Theorem first_bullet_bounded (article : dict) (language : pystr) (d : dict) :
  text_or_missing article "title" →
  ai_clean_and_summarize article language = Ok d →
  ∃ b1, bullet 0 (Ok d) = Some (VStr b1) ∧ length b1 ≤ 81.
Proof.
  intros Htitle Hd.
  destruct (text_or_default article "title" (py "Untitled") Htitle) as [t Ht].
  pose proof (returns_summarizable article language d Hd) as Hok.
  unfold summarizable in Hok. rewrite Ht in Hok.
  destruct (decide (language = py "ur")) as [->|Hlang].
  - rewrite (bool_decide_eq_true_2 _ eq_refl) in Hok.
    destruct (py_or (dict_get article "source") (VStr (py "نامعلوم")))
      as [| | |s2|l|] eqn:Hs; try discriminate Hok.
    rewrite (summarize_ur article t s2 Ht Hs) in Hd.
    assert (Ok d = Ok (mkdict [
      ("bullets",
       VList [VStr (py "اہم نقطہ: " ++ slice_to 70 t);
              VStr (py "سورس: " ++ s2);
              VStr (py "وقت: " ++ py_str (dict_get article "published_at"))]);
      ("impact", VStr impact_ur)])) as -> by congruence.
    unfold bullet. rewrite bullets_of_summary. eexists. split; [reflexivity|].
    rewrite length_app, length_slice_to.
    replace (length (py "اہم نقطہ: ")) with 10 by reflexivity. lia.
  - rewrite (summarize_en article language t Hlang Ht) in Hd.
    assert (Ok d = Ok (mkdict [
      ("bullets",
       VList [VStr (py "Key point: " ++ slice_to 70 t);
              VStr (py "Source: "
                    ++ py_str (dict_get_or article "source"
                                 (VStr (py "unknown"))));
              VStr (py "Time: "
                    ++ py_str (dict_get_or article "published_at"
                                 (VStr [])))]);
      ("impact", VStr impact_en)])) as -> by congruence.
    unfold bullet. rewrite bullets_of_summary. eexists. split; [reflexivity|].
    rewrite length_app, length_slice_to.
    replace (length (py "Key point: ")) with 11 by reflexivity. lia.
Qed.

(** X6.  The two languages treat a source that is present but empty
    differently.  When the source is [None], the English second bullet is
    "Source: None" and the Urdu one names the default "نامعلوم"; when the
    source is the empty string, the English bullet is "Source: " and the
    Urdu one again names the default. *)
Theorem second_bullet_empty_source (article : dict) (t : pystr) :
  py_or (dict_get article "title") (VStr (py "Untitled")) = VStr t →
  (article !! "source" = Some VNone →
     bullet 1 (ai_clean_and_summarize article (py "en"))
     = Some (VStr (py "Source: None")) ∧
     bullet 1 (ai_clean_and_summarize article (py "ur"))
     = Some (VStr (py "سورس: نامعلوم"))) ∧
  (article !! "source" = Some (VStr []) →
     bullet 1 (ai_clean_and_summarize article (py "en"))
     = Some (VStr (py "Source: ")) ∧
     bullet 1 (ai_clean_and_summarize article (py "ur"))
     = Some (VStr (py "سورس: نامعلوم"))).
Proof.
  intros Ht.
  rewrite (summarize_en article (py "en") t py_ur_not_en Ht).
  unfold bullet at 1 3. rewrite !bullets_of_summary.
  split; intros Hs.
  - rewrite (summarize_ur article t (py "نامعلوم") Ht)
      by (unfold dict_get; rewrite Hs; reflexivity).
    unfold bullet. rewrite bullets_of_summary.
    unfold dict_get_or. rewrite Hs. split; reflexivity.
  - rewrite (summarize_ur article t (py "نامعلوم") Ht)
      by (unfold dict_get; rewrite Hs; reflexivity).
    unfold bullet. rewrite bullets_of_summary.
    unfold dict_get_or. rewrite Hs. split; reflexivity.
Qed.

(** X7.  The two languages treat a missing publication time differently.
    For an article with a textual title and source and no "published_at",
    the English third bullet is "Time: " and the Urdu one is "وقت: None";
    when "published_at" is [None] both print "None". *)
Theorem third_bullet_no_time (article : dict) :
  text_or_missing article "title" →
  text_or_missing article "source" →
  (article !! "published_at" = None →
     bullet 2 (ai_clean_and_summarize article (py "en"))
     = Some (VStr (py "Time: ")) ∧
     bullet 2 (ai_clean_and_summarize article (py "ur"))
     = Some (VStr (py "وقت: None"))) ∧
  (article !! "published_at" = Some VNone →
     bullet 2 (ai_clean_and_summarize article (py "en"))
     = Some (VStr (py "Time: None")) ∧
     bullet 2 (ai_clean_and_summarize article (py "ur"))
     = Some (VStr (py "وقت: None"))).
Proof.
  intros Htitle Hsource.
  destruct (text_or_default article "title" (py "Untitled") Htitle) as [t Ht].
  destruct (text_or_default article "source" (py "نامعلوم") Hsource)
    as [s2 Hs].
  rewrite (summarize_en article (py "en") t py_ur_not_en Ht).
  rewrite (summarize_ur article t s2 Ht Hs).
  unfold bullet. rewrite !bullets_of_summary.
  unfold dict_get_or, dict_get.
  split; intros Hp; rewrite Hp; split; reflexivity.
Qed.

End SummarizerMore.

Lemma ai_clean_and_summarize_default_language_witness :
  py "fr" ≠ py "ur" ∧
  ai_clean_and_summarize (H := ascii_runtime) loud_story (py "fr")
  = ai_clean_and_summarize (H := ascii_runtime) loud_story (py "en").
Proof.
  assert (Hfr : py "fr" ≠ py "ur") by (vm_compute; discriminate).
  split; [exact Hfr|].
  exact (ai_clean_and_summarize_default_language (H := ascii_runtime)
           loud_story (py "fr") Hfr).
Defined.

Lemma ai_clean_and_summarize_reads_witness :
  ai_clean_and_summarize (H := ascii_runtime) loud_story (py "ur")
  = ai_clean_and_summarize (H := ascii_runtime)
      (delete "description" loud_story) (py "ur").
Proof.
  apply (ai_clean_and_summarize_reads (H := ascii_runtime) loud_story
           (delete "description" loud_story) (py "ur"));
    symmetry; by apply lookup_delete_ne.
Defined.

Lemma ai_clean_and_summarize_shape_witness :
  ∃ b1 b2 b3,
    stub_summary
    = mkdict [("bullets", VList [VStr b1; VStr b2; VStr b3]);
              ("impact",
               VStr (if bool_decide (py "ur" = py "ur") then impact_ur
                     else impact_en))].
Proof.
  apply (ai_clean_and_summarize_shape (H := ascii_runtime) (stub 0) (py "ur")).
  unfold stub_summary.
  destruct (summarizable_returns (H := ascii_runtime) (stub 0) (py "ur"))
    as [d ->]; [vm_compute|]; reflexivity.
Defined.

Lemma first_bullet_bounded_witness :
  ∃ b1, bullet 0 (Ok stub_summary) = Some (VStr b1) ∧ length b1 ≤ 81.
Proof.
  apply (first_bullet_bounded (H := ascii_runtime) (stub 0) (py "ur")).
  - vm_compute; exact I.
  - unfold stub_summary.
    destruct (summarizable_returns (H := ascii_runtime) (stub 0) (py "ur"))
      as [d ->]; [vm_compute|]; reflexivity.
Defined.

Lemma second_bullet_empty_source_witness :
  bullet 1 (ai_clean_and_summarize (H := ascii_runtime) anonymous_story (py "en"))
  = Some (VStr (py "Source: None")) ∧
  bullet 1 (ai_clean_and_summarize (H := ascii_runtime) unsigned_story (py "ur"))
  = Some (VStr (py "سورس: نامعلوم")).
Proof.
  split.
  - apply (second_bullet_empty_source (H := ascii_runtime) anonymous_story
             (py "Story")); vm_compute; reflexivity.
  - apply (second_bullet_empty_source (H := ascii_runtime) unsigned_story
             (py "Story")); vm_compute; reflexivity.
Defined.

Lemma third_bullet_no_time_witness :
  bullet 2 (ai_clean_and_summarize (H := ascii_runtime) anonymous_story (py "en"))
  = Some (VStr (py "Time: ")) ∧
  bullet 2 (ai_clean_and_summarize (H := ascii_runtime) anonymous_story (py "ur"))
  = Some (VStr (py "وقت: None")).
Proof.
  apply (third_bullet_no_time (H := ascii_runtime) anonymous_story);
    vm_compute; first [exact I | reflexivity].
Defined.

(* ===================================================================== *)
(** ** More on the feed                                                   *)
(* ===================================================================== *)

Section FeedMore.
Context `{PyRuntime} {Store : Type} `{DocumentStore Store}.

(** X8.  The filter built from the preferences: a city condition exactly
    when a non-empty city is given; an interests condition exactly when
    the list is not empty; an urgency and a language condition always; and
    no other condition. *)
Theorem feed_query_conditions (payload : PersonalizeRequest.t) :
  feed_query payload !! "city"
  = match PersonalizeRequest.city payload with
    | Some (c :: cs) => Some (Equals (VStr (c :: cs)))
    | _ => None
    end ∧
  feed_query payload !! "interests"
  = match PersonalizeRequest.interests payload with
    | [] => None
    | l => Some (AnyOf (map VStr l))
    end ∧
  feed_query payload !! "urgency"
  = Some (Equals (VStr (urgency_code (PersonalizeRequest.urgency payload)))) ∧
  feed_query payload !! "language"
  = Some (Equals (VStr (lang_code (PersonalizeRequest.language payload)))) ∧
  ∀ k, k ∉ ["city"; "interests"; "urgency"; "language"] →
       feed_query payload !! k = None.
Proof.
  destruct payload as [city interests urgency language].
  unfold feed_query.
  cbn [PersonalizeRequest.city PersonalizeRequest.interests
       PersonalizeRequest.urgency PersonalizeRequest.language].
  replace (truthy (VStr (urgency_code urgency))) with true
    by (by destruct urgency).
  replace (truthy (VStr (lang_code language))) with true
    by (by destruct language).
  destruct city as [[|c cs]|], interests as [|i l]; cbn [truthy];
    (split; [|split; [|split; [|split]]]);
    try (rewrite ?lookup_insert_ne by done;
         first [apply lookup_insert_eq | apply lookup_empty]);
    intros k Hk; rewrite !not_elem_of_cons in Hk;
    destruct Hk as (? & ? & ? & ? & _);
    rewrite ?lookup_insert_ne by done; apply lookup_empty.
Qed.

(** [normalize] returns exactly on the documents with [fixable]
    bullets. *)
Lemma ensure_three_fixable (b : value) :
  (∃ b', ensure_three (py_or b (VList [])) = Ok b') ↔ fixable b = true.
Proof.
  unfold ensure_three, py_or.
  destruct b as [|[|]|z|[|c s]|l|]; cbn [truthy fixable negb];
    try (split; [intros [b' Hb]; discriminate Hb | discriminate]);
    try (split; [reflexivity | intros _; eexists; reflexivity]).
  - destruct (Z.eqb_spec z 0) as [->|Hz]; cbn [negb].
    + split; [reflexivity | intros _; eexists; reflexivity].
    + split; [intros [b' Hb]; discriminate Hb | discriminate].
  - cbn [py_len mbind res_bind].
    destruct (Nat.ltb_spec 3 (length (c :: s))) as [Hlt|Hge].
    + split; [|intros _; eexists; reflexivity].
      intros _. apply Nat.leb_le. lia.
    + destruct (Nat.ltb_spec (length (c :: s)) 3) as [Hlt|Hge'].
      * split; [intros [b' Hb]; discriminate Hb|].
        intros Hle. apply Nat.leb_le in Hle. lia.
      * split; [|intros _; eexists; reflexivity].
        intros _. apply Nat.leb_le. lia.
  - cbn [py_len mbind res_bind]. split; [reflexivity|]. intros _.
    destruct l as [|x l]; cbn [truthy py_len mbind res_bind].
    + eexists. reflexivity.
    + destruct (3 <? length (x :: l)); [eexists; reflexivity|].
      destruct (length (x :: l) <? 3); eexists; reflexivity.
Qed.


(** The shape of a normalised item. *)
Lemma normalize_item (d item : dict) :
  normalize d = Ok item →
  item !! "_id" = None ∧
  item !! "id" = Some (VStr (py_str (dict_get d "_id"))) ∧
  ∀ k, k ∉ ["id"; "_id"; "bullets"] → item !! k = d !! k.
Proof.
  intros Hitem. pose proof Hitem as Hitem'.
  rewrite normalize_unfold in Hitem'.
  destruct (ensure_three _) as [b|e]; [|discriminate Hitem'].
  cbn [mbind res_bind] in Hitem'.
  assert (item = <["bullets" := b]>
            (delete "_id" (<["id" := VStr (py_str (dict_get d "_id"))]> d)))
    as Heq by congruence.
  split; [|split].
  - rewrite Heq, lookup_insert_ne by done. apply lookup_delete_eq.
  - rewrite Heq, lookup_insert_ne, lookup_delete_ne by done.
    apply lookup_insert_eq.
  - intros k Hk. rewrite !not_elem_of_cons in Hk. destruct Hk as (? & ? & ? & _).
    by apply (normalize_other_keys d item).
Qed.

(** X10.  A feed response lists the queried documents one for one and in
    order: [count] is the number of items and of documents; the i-th item
    comes from the i-th document, without its "_id", with
    [id = str(_id)], and with every field but "id", "_id" and "bullets" as
    stored. *)
Theorem feed_items_in_order (payload : PersonalizeRequest.t) (s : Store)
    (r : FeedResponse.t) :
  get_personalized_feed payload s = Reply r →
  ∃ docs,
    get_documents (py "newsitem") (feed_query payload) 50 s = Ok docs ∧
    FeedResponse.count r = length docs ∧
    length (FeedResponse.items r) = length docs ∧
    ∀ i (d : dict), docs !! i = Some d →
      ∃ item : dict, FeedResponse.items r !! i = Some item ∧
        item !! "_id" = None ∧
        item !! "id" = Some (VStr (py_str (dict_get d "_id"))) ∧
        ∀ k, k ∉ ["id"; "_id"; "bullets"] → item !! k = d !! k.
Proof.
  intros Hr. destruct (feed_items payload s r Hr) as (docs & Hq & Hn & Hc).
  exists docs. split; [done|].
  pose proof (Forall2_length _ _ _ Hn) as Hlen.
  split; [congruence|]. split; [done|].
  intros i d Hd.
  destruct (Forall2_lookup_l _ _ _ _ _ Hn Hd) as (item & Hi & Hitem).
  exists item. split; [done|]. by apply normalize_item.
Qed.

(** X11.  The feed handler never lets an exception escape: it returns,
    or it raises [HTTPException] with status 500 and the detail
    "DB error: " followed by the text of the exception, whether the query
    raised or the normalisation of a document did; in the second case no
    item is returned. *)
Theorem feed_failures (payload : PersonalizeRequest.t) (s : Store) :
  (∀ e, get_personalized_feed payload s ≠ Unhandled e) ∧
  (∀ code detail,
     get_personalized_feed payload s = HTTPError code detail →
     code = 500%Z ∧ ∃ e, detail = py "DB error: " ++ exn_str e) ∧
  (∀ e, get_documents (py "newsitem") (feed_query payload) 50 s = Raise e →
     get_personalized_feed payload s
     = HTTPError 500 (py "DB error: " ++ exn_str e)) ∧
  (∀ docs (d : dict),
     get_documents (py "newsitem") (feed_query payload) 50 s = Ok docs →
     d ∈ docs → fixable (dict_get d "bullets") = false →
     ∃ e, get_personalized_feed payload s
          = HTTPError 500 (py "DB error: " ++ exn_str e)).
Proof.
  unfold get_personalized_feed.
  split; [|split; [|split]].
  - intros e.
    destruct (get_documents _ _ _ _) as [docs|e']; cbn [mbind res_bind];
      [|discriminate].
    destruct (res_map normalize docs); cbn [mbind res_bind]; discriminate.
  - intros code detail.
    destruct (get_documents _ _ _ _) as [docs|e']; cbn [mbind res_bind].
    + destruct (res_map normalize docs) as [items|e'];
        cbn [mbind res_bind]; [discriminate|].
      intros Heq. split; [congruence|]. exists e'. congruence.
    + intros Heq. split; [congruence|]. exists e'. congruence.
  - intros e ->. reflexivity.
  - intros docs d -> Hd Hbad. cbn [mbind res_bind].
    destruct (res_map normalize docs) as [items|e] eqn:Hitems;
      cbn [mbind res_bind]; [|by exists e].
    apply res_map_Ok in Hitems.
    apply list_elem_of_lookup in Hd as [i Hd].
    destruct (Forall2_lookup_l _ _ _ _ _ Hitems Hd) as (item & _ & Hitem).
    rewrite normalize_unfold in Hitem.
    destruct (ensure_three _) as [b'|e] eqn:Hb; [|discriminate Hitem].
    assert (fixable (dict_get d "bullets") = true) as Hok
      by (apply ensure_three_fixable; by exists b').
    congruence.
Qed.

End FeedMore.

Lemma feed_items_in_order_witness :
  ∃ docs,
    get_documents (py "newsitem") (feed_query plain_request) 50
      (holding [short_doc; long_doc]) = Ok docs ∧
    FeedResponse.count fed = length docs ∧
    length (FeedResponse.items fed) = length docs ∧
    ∀ i (d : dict), docs !! i = Some d →
      ∃ item : dict, FeedResponse.items fed !! i = Some item ∧
        item !! "_id" = None ∧
        item !! "id" = Some (VStr (py_str (H := ascii_runtime)
                                     (dict_get d "_id"))) ∧
        ∀ k, k ∉ ["id"; "_id"; "bullets"] → item !! k = d !! k.
Proof.
  apply (feed_items_in_order (H := ascii_runtime) plain_request
           (holding [short_doc; long_doc]) fed).
  unfold fed.
  destruct (get_personalized_feed plain_request (holding [short_doc; long_doc]))
    as [r| |] eqn:Hfeed; [reflexivity| |];
    apply (f_equal (λ x, if replied x is Some _ then true else false)) in Hfeed;
    vm_compute in Hfeed; discriminate Hfeed.
Defined.

Example feed_broken_document :
  get_personalized_feed (H := ascii_runtime) plain_request
    (holding [short_doc; broken_doc])
  = HTTPError 500 (py "DB error: <fault>").
Proof. vm_compute. reflexivity. Qed.

(* ===================================================================== *)
(** ** More on ingestion                                                  *)
(* ===================================================================== *)

Section IngestMore.
Context `{PyRuntime} {Store : Type} `{DocumentStore Store}.

(** The verdict on a textual title is one of three. *)
Lemma ai_fact_check_verdicts (article : dict) :
  text_or_missing article "title" →
  ∃ status score,
    ai_fact_check article = Ok (verdict status score) ∧
    (status, score) ∈ [("Verified"%string, 5%Z); ("Rumour"%string, 65%Z);
                       ("Unconfirmed"%string, 30%Z)].
Proof.
  intros Ht. destruct (text_or_default article "title" [] Ht) as [t Heq].
  unfold ai_fact_check. rewrite Heq. cbn [py_lower mbind res_bind].
  destruct (any_in verified_words _).
  { eexists _, _. split; [reflexivity|]. set_solver. }
  destruct (any_in rumour_words _);
    eexists _, _; (split; [reflexivity|]); set_solver.
Qed.

(** The document composed for an article with a textual title and
    source. *)
Lemma composed_fields (art : dict) (language : lang) :
  text_or_missing art "title" → text_or_missing art "source" →
  ∃ doc b1 b2 b3 status score,
    compose_article art language = Ok doc ∧
    (status, score) ∈ [("Verified"%string, 5%Z); ("Rumour"%string, 65%Z);
                       ("Unconfirmed"%string, 30%Z)] ∧
    doc !! "urgency" = Some (VStr (py "important")) ∧
    doc !! "language" = Some (VStr (lang_code language)) ∧
    doc !! "bullets" = Some (VList [VStr b1; VStr b2; VStr b3]) ∧
    doc !! "impact" = Some (VStr (impact_of language)) ∧
    doc !! "fact_status" = Some (VStr (py status)) ∧
    doc !! "risk_score" = Some (VInt score) ∧
    ∀ k, k ∉ ["bullets"; "impact"; "fact_status"; "risk_score";
              "language"; "urgency"] →
         doc !! k = art !! k.
Proof.
  intros Ht Hs.
  destruct (summarize_text_bullets art language Ht Hs)
    as (b1 & b2 & b3 & Hsum).
  destruct (ai_fact_check_verdicts art Ht) as (status & score & Hchk & Hin).
  unfold compose_article. rewrite Hsum. cbn [mbind res_bind].
  rewrite Hchk. cbn [mbind res_bind].
  eexists _, b1, b2, b3, status, score. split; [reflexivity|].
  split; [exact Hin|].
  split; [by rewrite compose_lookup|].
  split; [by rewrite compose_lookup|].
  split.
  { rewrite compose_lookup, decide_False, decide_False by done.
    unfold verdict. rewrite mkdict_lookup2 by done.
    by rewrite mkdict_lookup2_fst. }
  split.
  { rewrite compose_lookup, decide_False, decide_False by done.
    unfold verdict. rewrite mkdict_lookup2 by done.
    by rewrite mkdict_lookup2_snd. }
  split.
  { rewrite compose_lookup, decide_False, decide_False by done.
    unfold verdict. by rewrite mkdict_lookup2_fst. }
  split.
  { rewrite compose_lookup, decide_False, decide_False by done.
    unfold verdict. by rewrite mkdict_lookup2_snd. }
  intros k Hk. rewrite compose_lookup.
  rewrite !not_elem_of_cons in Hk. destruct Hk as (?&?&?&?&?&?&_).
  rewrite decide_False, decide_False by done.
  unfold verdict. by rewrite !mkdict_lookup2.
Qed.

(** X12.  For any store, [ingest_news] ends in one of two ways: it
    returns the count 3 with three identifiers, or it raises
    [HTTPException] with status 500 and a detail that starts with
    "DB error: ".  No other exception escapes it. *)
Theorem ingest_news_outcomes (payload : IngestRequest.t)
    (clock : nat → pystr) (s : Store) :
  (∃ i1 i2 i3 s',
     ingest_news payload clock s
     = (Reply {| IngestResponse.inserted := 3;
                 IngestResponse.ids := [i1; i2; i3] |}, s')) ∨
  (∃ e s',
     ingest_news payload clock s
     = (HTTPError 500 (py "DB error: " ++ exn_str e), s')).
Proof.
  pose proof (sample_articles_text clock) as Htext.
  unfold ingest_news.
  destruct (sample_articles clock) as [|a1 [|a2 [|a3 [|]]]] eqn:Hbatch;
    try discriminate Hbatch.
  apply Forall_cons in Htext as [[Ht1 Hs1] Htext].
  apply Forall_cons in Htext as [[Ht2 Hs2] Htext].
  apply Forall_cons in Htext as [[Ht3 Hs3] _].
  set (language := IngestRequest.language payload).
  destruct (compose_article_ok a1 language Ht1 Hs1) as (d1 & ? & ? & ? & Hd1 & _).
  destruct (compose_article_ok a2 language Ht2 Hs2) as (d2 & ? & ? & ? & Hd2 & _).
  destruct (compose_article_ok a3 language Ht3 Hs3) as (d3 & ? & ? & ? & Hd3 & _).
  cbn [ingest_loop]. rewrite Hd1.
  destruct (create_document (py "newsitem") d1 s) as [[i1|e] s1];
    [|right; by exists e, s1].
  cbn [ingest_loop]. rewrite Hd2.
  destruct (create_document (py "newsitem") d2 s1) as [[i2|e] s2];
    [|right; by exists e, s2].
  cbn [ingest_loop]. rewrite Hd3.
  destruct (create_document (py "newsitem") d3 s2) as [[i3|e] s3];
    [|right; by exists e, s3].
  left. by exists i1, i2, i3, s3.
Qed.

(** X13.  What ingestion composes for any article with a textual title
    and source: the urgency is "important" and the language is the
    requested one, whatever the article said; the bullets are three
    strings and the impact is the sentence of the language; the verdict
    is one of Verified/5, Rumour/65, Unconfirmed/30; and every other field
    is the article's. *)
Theorem compose_article_fields (art : dict) (language : lang) :
  text_or_missing art "title" → text_or_missing art "source" →
  ∃ doc b1 b2 b3 status score,
    compose_article art language = Ok doc ∧
    (status, score) ∈ [("Verified"%string, 5%Z); ("Rumour"%string, 65%Z);
                       ("Unconfirmed"%string, 30%Z)] ∧
    doc !! "urgency" = Some (VStr (py "important")) ∧
    doc !! "language" = Some (VStr (lang_code language)) ∧
    doc !! "bullets" = Some (VList [VStr b1; VStr b2; VStr b3]) ∧
    doc !! "impact" = Some (VStr (impact_of language)) ∧
    doc !! "fact_status" = Some (VStr (py status)) ∧
    doc !! "risk_score" = Some (VInt score) ∧
    ∀ k, k ∉ ["bullets"; "impact"; "fact_status"; "risk_score";
              "language"; "urgency"] →
         doc !! k = art !! k.
Proof.
  intros Ht Hs.
  destruct (composed_fields art language Ht Hs)
    as (doc & b1 & b2 & b3 & status & score & Hdoc & Hrest).
  by exists doc, b1, b2, b3, status, score.
Qed.

Lemma required_text (field : option value) :
  required is_text field = true → ∃ t, field = Some (VStr t).
Proof. destruct field as [[| | |t| |]|]; try discriminate. by exists t. Qed.

(** X14.  Composition keeps the [NewsItem] schema: if an article meets
    the field declarations of [NewsItem], so does the document composed
    for it, in either language. *)
Theorem compose_article_NewsItem (art : dict) (language : lang) :
  NewsItem art = true →
  ∃ doc, compose_article art language = Ok doc ∧ NewsItem doc = true.
Proof.
  intros Hart. unfold NewsItem in Hart. rewrite !andb_true_iff in Hart.
  destruct Hart as ((((((((((((Hsrc & Htitle) & Hurl) & Hcity) & Hint)
                          & Hurg) & Hlang) & Hbul) & Himp) & Hfs) & Hrs)
                     & Hth) & Hsid).
  destruct (required_text _ Hsrc) as [src Hsource].
  destruct (required_text _ Htitle) as [t Ht].
  assert (Htext : text_or_missing art "title")
    by (unfold text_or_missing; by rewrite Ht).
  assert (Hstext : text_or_missing art "source")
    by (unfold text_or_missing; by rewrite Hsource).
  destruct (composed_fields art language Htext Hstext)
    as (doc & b1 & b2 & b3 & status & score & Hdoc & Hin & Hu & Hl & Hb & Hi
        & Hf & Hr & Hkeep).
  exists doc. split; [exact Hdoc|].
  assert (Hother : ∀ k : string,
            k ≠ "bullets" → k ≠ "impact" → k ≠ "fact_status" →
            k ≠ "risk_score" → k ≠ "language" → k ≠ "urgency" →
            doc !! k = art !! k).
  { intros k ? ? ? ? ? ?. apply Hkeep. rewrite !not_elem_of_cons.
    repeat split; try done. apply not_elem_of_nil. }
  unfold NewsItem.
  rewrite Hu, Hl, Hb, Hi, Hf, Hr.
  rewrite !Hother by done.
  rewrite Hsrc, Htitle, Hurl, Hcity, Hint, Hth, Hsid.
  rewrite !elem_of_cons in Hin.
  destruct language;
    destruct Hin as [Hin|[Hin|[Hin|Hin]]];
    try (by apply elem_of_nil in Hin);
    injection Hin as -> ->; vm_compute; reflexivity.
Qed.

End IngestMore.

Lemma compose_article_fields_witness :
  ∃ doc b1 b2 b3 status score,
    compose_article (H := ascii_runtime) loud_story ur = Ok doc ∧
    (status, score) ∈ [("Verified"%string, 5%Z); ("Rumour"%string, 65%Z);
                       ("Unconfirmed"%string, 30%Z)] ∧
    doc !! "urgency" = Some (VStr (py "important")) ∧
    doc !! "language" = Some (VStr (lang_code ur)) ∧
    doc !! "bullets" = Some (VList [VStr b1; VStr b2; VStr b3]) ∧
    doc !! "impact" = Some (VStr (impact_of ur)) ∧
    doc !! "fact_status" = Some (VStr (py status)) ∧
    doc !! "risk_score" = Some (VInt score) ∧
    ∀ k, k ∉ ["bullets"; "impact"; "fact_status"; "risk_score";
              "language"; "urgency"] →
         doc !! k = loud_story !! k.
Proof.
  apply (compose_article_fields (H := ascii_runtime) loud_story ur);
    vm_compute; exact I.
Defined.

Lemma compose_article_NewsItem_witness :
  NewsItem (stub 1) = true ∧
  ∃ doc, compose_article (H := ascii_runtime) (stub 1) ur = Ok doc
         ∧ NewsItem doc = true.
Proof.
  assert (Hart : NewsItem (stub 1) = true) by (vm_compute; reflexivity).
  split; [exact Hart|].
  exact (compose_article_NewsItem (H := ascii_runtime) (stub 1) ur Hart).
Defined.

Example composed_loud_story :
  (λ d : dict, (d !! "urgency", d !! "language", d !! "fact_status",
                d !! "risk_score", d !! "description"))
    <$> returned (compose_article (H := ascii_runtime) loud_story en)
  = Some (Some (VStr (py "important")), Some (VStr (py "en")),
          Some (VStr (py "Rumour")), Some (VInt 65),
          Some (VStr (py "A long description."))).
Proof. vm_compute. reflexivity. Qed.

Example sample_articles_NewsItem :
  forallb NewsItem (sample_articles clock0) = true.
Proof. vm_compute. reflexivity. Qed.

(* ===================================================================== *)
(** ** More on the digest                                                 *)
(* ===================================================================== *)

Lemma res_map_Raise_inv {A B} (f : A → res B) (l : list A) (e : pyexn) :
  res_map f l = Raise e → ∃ x, x ∈ l ∧ f x = Raise e.
Proof.
  induction l as [|x l IH]; [discriminate|]. cbn [res_map].
  destruct (f x) as [y|e'] eqn:Hx; cbn [mbind res_bind].
  - destruct (res_map f l) as [ys|e'] eqn:Hl; cbn [mbind res_bind];
      [discriminate|].
    intros Heq. destruct (IH Heq) as (x' & Hin & Hx').
    exists x'. split; [by apply list_elem_of_further | done].
  - intros Heq. exists x. split; [apply list_elem_of_here | congruence].
Qed.

Lemma py_slice_to_Raise (n : nat) (v : value) (e : pyexn) :
  py_slice_to n v = Raise e → ∃ f, e = TypeError f.
Proof. destruct v; cbn [py_slice_to]; try discriminate; intros [= <-]; eauto. Qed.

Lemma join_items_Raise (i : nat) (items : list value) (e : pyexn) :
  join_items i items = Raise e → ∃ f, e = TypeError f.
Proof.
  revert i. induction items as [|v items IH]; intros i; [discriminate|].
  destruct v; cbn [join_items]; try (intros [= <-]; eauto).
  destruct (join_items (S i) items) as [ss|e'] eqn:Hrest;
    cbn [mbind res_bind]; [discriminate|].
  intros [= <-]. by apply (IH (S i)).
Qed.

(** The length of a joined list of bounded strings. *)
Lemma length_join_le (sep : pystr) (l : list pystr) (m : nat) :
  Forall (λ x, length x ≤ m) l →
  length (join sep l) ≤ length l * (m + length sep) - length sep.
Proof.
  induction 1 as [|x l Hx Hl IH]; [simpl; lia|].
  destruct l as [|y l].
  - cbn [join length]. lia.
  - change (join sep (x :: y :: l)) with (x ++ sep ++ join sep (y :: l)).
    rewrite !length_app. cbn [length] in *. lia.
Qed.

Section DigestMore.
Context {Store : Type} `{DocumentStore Store}.

Lemma digest_docs_nonempty (language : lang) (limit : nat)
    (clock : nat → pystr) (s : Store) :
  digest_docs language limit clock s ≠ [].
Proof.
  unfold digest_docs.
  destruct (get_documents _ _ _ _) as [[|d docs]|e]; discriminate.
Qed.

Lemma digest_summary_headlines (language : lang) (docs : list dict)
    (hs : list value) (sm : pystr) :
  digest_summary language docs = Ok (hs, sm) →
  hs = take 10 (map (λ d, dict_get d "title") docs) ∧
  ∃ ts, hs = map VStr ts ∧
        sm = join (py " ") (map (slice_to 60) ts) ++ trailer language.
Proof.
  intros Hsum. pose proof Hsum as Hsum'. unfold digest_summary in Hsum'.
  destruct (res_map _ _) as [cut|e] eqn:Hcut; [|discriminate Hsum'].
  cbn [mbind res_bind] in Hsum'. unfold py_join in Hsum'.
  destruct (join_items 0 cut) as [ss|e] eqn:Hss; [|discriminate Hsum'].
  cbn [mbind res_bind] in Hsum'.
  destruct (slice_join_text _ _ _ _ _ Hcut Hss) as [ts Hts].
  rewrite (digest_summary_text language docs ts Hts) in Hsum.
  split; [congruence|]. exists ts. split; congruence.
Qed.

(** X15.  A digest response is never empty and never long: it has as
    many headlines as items, at least 1 and at most 10. *)
Theorem digest_sizes (language : lang) (limit : nat) (clock : nat → pystr)
    (s : Store) (r : DigestResponse.t) :
  morning_digest language limit clock s = Reply r →
  1 ≤ length (DigestResponse.items r) ∧
  length (DigestResponse.items r) ≤ 10 ∧
  length (DigestResponse.headlines r) = length (DigestResponse.items r).
Proof.
  intros Hr. apply morning_digest_Reply, digest_of_Ok in Hr
    as (Hsum & Hitems & _).
  apply digest_summary_headlines in Hsum as [Hhs _].
  apply res_map_length in Hitems.
  pose proof (digest_docs_nonempty language limit clock s) as Hne.
  rewrite Hhs, Hitems, !length_take, length_map.
  destruct (digest_docs language limit clock s) as [|d docs]; [done|].
  cbn [length]. lia.
Qed.

(** X16.  The 60-second summary of a digest response has at most 634
    characters: ten headlines cut to 60, nine spaces, and the Urdu
    sentence of 25. *)
Theorem digest_summary_bounded (language : lang) (limit : nat)
    (clock : nat → pystr) (s : Store) (r : DigestResponse.t) :
  morning_digest language limit clock s = Reply r →
  length (DigestResponse.summary_60s r) ≤ 634.
Proof.
  intros Hr. apply morning_digest_Reply, digest_of_Ok in Hr as (Hsum & _).
  apply digest_summary_headlines in Hsum as (Hhs & ts & Hts & ->).
  assert (Hlen : length ts ≤ 10).
  { rewrite <- (length_map VStr ts), <- Hts, Hhs, length_take. lia. }
  rewrite length_app.
  assert (Hjoin : length (join (py " ") (map (slice_to 60) ts))
                  ≤ length (map (slice_to 60) ts)
                    * (60 + length (py " ")) - length (py " ")).
  { apply length_join_le. apply Forall_forall. intros x Hx.
    apply list_elem_of_In, in_map_iff in Hx as (t & <- & _).
    rewrite length_slice_to. lia. }
  rewrite length_map in Hjoin.
  replace (length (py " ")) with 1 in Hjoin by reflexivity.
  assert (length (trailer language) ≤ 25) by (destruct language; vm_compute; lia).
  lia.
Qed.


(** X18.  The digest handler never raises [HTTPException]: it returns,
    or a [TypeError] from a slice or from the join escapes uncaught. *)
Theorem morning_digest_outcomes (language : lang) (limit : nat)
    (clock : nat → pystr) (s : Store) :
  (∃ r, morning_digest language limit clock s = Reply r) ∨
  (∃ f, morning_digest language limit clock s = Unhandled (TypeError f)).
Proof.
  unfold morning_digest, digest_of.
  set (docs := digest_docs language limit clock s).
  destruct (digest_summary language docs) as [[hs sm]|e] eqn:Hsum.
  - cbn [mbind res_bind].
    destruct (res_map digest_item (take 10 docs)) as [items|e] eqn:Hitems;
      cbn [mbind res_bind reply_of]; [left; by eexists|].
    right. apply res_map_Raise_inv in Hitems as (d & _ & Hd).
    unfold digest_item in Hd.
    destruct (py_slice_to 3 _) as [b|e'] eqn:Hb; [discriminate Hd|].
    apply py_slice_to_Raise in Hb as [f ->]. exists f.
    cbn [mbind res_bind] in Hd. congruence.
  - cbn [mbind res_bind reply_of]. right.
    unfold digest_summary in Hsum.
    destruct (res_map _ _) as [cut|e'] eqn:Hcut.
    + cbn [mbind res_bind] in Hsum. unfold py_join in Hsum.
      destruct (join_items 0 cut) as [ss|e'] eqn:Hss; [discriminate Hsum|].
      apply join_items_Raise in Hss as [f ->]. exists f.
      cbn [mbind res_bind] in Hsum. congruence.
    + apply res_map_Raise_inv in Hcut as (v & _ & Hv).
      apply py_slice_to_Raise in Hv as [f ->]. exists f.
      cbn [mbind res_bind] in Hsum. congruence.
Qed.

End DigestMore.

Lemma digest_sizes_witness :
  1 ≤ length (DigestResponse.items digested) ∧
  length (DigestResponse.items digested) ≤ 10 ∧
  length (DigestResponse.headlines digested)
  = length (DigestResponse.items digested).
Proof.
  apply (digest_sizes en 20 clock0 (holding eleven_docs) digested).
  unfold digested.
  destruct (morning_digest en 20 clock0 (holding eleven_docs))
    as [r| |] eqn:Hd; [reflexivity| |];
    apply (f_equal (λ x, if replied x is Some _ then true else false)) in Hd;
    vm_compute in Hd; discriminate Hd.
Defined.

Lemma digest_summary_bounded_witness :
  length (DigestResponse.summary_60s digested) ≤ 634.
Proof.
  apply (digest_summary_bounded en 20 clock0 (holding eleven_docs) digested).
  unfold digested.
  destruct (morning_digest en 20 clock0 (holding eleven_docs))
    as [r| |] eqn:Hd; [reflexivity| |];
    apply (f_equal (λ x, if replied x is Some _ then true else false)) in Hd;
    vm_compute in Hd; discriminate Hd.
Defined.


Example digest_lengths :
  (λ r, (length (DigestResponse.headlines r), length (DigestResponse.items r),
         length (DigestResponse.summary_60s r)))
    <$> replied (morning_digest en 20 clock0 (holding eleven_docs))
  = Some (10, 10, 59).
Proof. vm_compute. reflexivity. Qed.

(* ===================================================================== *)
(** ** The diagnostics route                                              *)
(* ===================================================================== *)

Ltac lookup_field := rewrite ?lookup_insert_ne by done; rewrite lookup_insert_eq.


Section DiagnosticsMore.
Context `{PyRuntime}.

(** X19.  What the diagnostics report under "database_url" and
    "database_name" depends on the environment only: the two fields say
    whether the variables are set, and neither "✅ Configured" nor the
    name of the database is ever returned. *)
Theorem test_database_environment (db : option Database.t)
    (getenv : string → option pystr) :
  test_database db getenv !! "database_url"
  = Some (VStr (if env_set getenv "DATABASE_URL" then py "✅ Set"
                else py "❌ Not Set")) ∧
  test_database db getenv !! "database_name"
  = Some (VStr (if env_set getenv "DATABASE_NAME" then py "✅ Set"
                else py "❌ Not Set")).
Proof. unfold test_database. split; by lookup_field. Qed.

(** X20.  "connection_status" is "Connected" exactly when there is a
    database handle whose name can be read (or is missing, the default
    standing in), whether or not the collections can be listed then;
    otherwise it is "Not Connected". *)
Theorem test_database_connection (db : option Database.t)
    (getenv : string → option pystr) :
  test_database db getenv !! "connection_status"
  = Some (VStr (match db with
                | Some d =>
                    match Database.name d with
                    | Ok _ | Raise (AttributeError _) => py "Connected"
                    | Raise _ => py "Not Connected"
                    end
                | None => py "Not Connected"
                end)).
Proof.
  unfold test_database, mkdict. cbn [foldl fst snd].
  destruct db as [d|]; [|by lookup_field].
  destruct (Database.name d) as [v|[m|f|f]]; cbn [py_getattr];
    try (by lookup_field);
    destruct (_ ← Database.list_collection_names d; _); by lookup_field.
Qed.


(** X22.  Collections are reported only together with the message
    "✅ Connected & Working": under any other message the list is
    empty. *)
Theorem test_database_collections (db : option Database.t)
    (getenv : string → option pystr) :
  test_database db getenv !! "collections" ≠ Some (VList []) →
  test_database db getenv !! "database"
  = Some (VStr (py "✅ Connected & Working")) ∧
  test_database db getenv !! "connection_status"
  = Some (VStr (py "Connected")).
Proof.
  unfold test_database, mkdict. cbn [foldl fst snd].
  destruct db as [d|]; [|intros Hc; contradict Hc; by lookup_field].
  destruct (py_getattr (Database.name d) _) as [v|e];
    [|intros Hc; contradict Hc; by lookup_field].
  destruct (_ ← Database.list_collection_names d; _) as [cut|e];
    [|intros Hc; contradict Hc; by lookup_field].
  intros _. split; by lookup_field.
Qed.

End DiagnosticsMore.

Lemma test_database_collections_witness :
  test_database (H := ascii_runtime) (Some twelve) url_only !! "database"
  = Some (VStr (py "✅ Connected & Working")) ∧
  test_database (H := ascii_runtime) (Some twelve) url_only !! "connection_status"
  = Some (VStr (py "Connected")).
Proof.
  apply (test_database_collections (H := ascii_runtime) (Some twelve) url_only).
  vm_compute. discriminate.
Defined.

Example test_database_twelve :
  test_database (H := ascii_runtime) (Some twelve) url_only !! "database_url"
  = Some (VStr (py "✅ Set")) ∧
  test_database (H := ascii_runtime) (Some twelve) url_only !! "database_name"
  = Some (VStr (py "❌ Not Set")) ∧
  (λ v, match v with Some (VList l) => length l | _ => 0 end)
    (test_database (H := ascii_runtime) (Some twelve) url_only !! "collections") = 10.
Proof. vm_compute. done. Qed.

Example test_database_failing :
  test_database (H := ascii_runtime) (Some failing_db) url_only !! "database"
  = Some (VStr (py "⚠️  Connected but Error: " ++ replicate 50 120%N)) ∧
  test_database (H := ascii_runtime) (Some failing_db) url_only !! "connection_status"
  = Some (VStr (py "Connected")).
Proof. vm_compute. done. Qed.
